(** * The Jira dashboard backend router, embedded in Rocq

    A shallow embedding of
    [plugins/jira-dashboard-backend/src/service/router.ts]: the three routes
    that [createRouter] registers ([/health], the dashboard route and the
    avatar route) are written as programs of a small state-and-exception
    monad.  The state holds what a request can observe or change: the
    response object, the ordered trace of log lines and awaited calls, and
    the service-side state (clock, cache, upstream project look-ups) that
    only [getProjectResponse] touches. *)

From Stdlib Require Import ZArith Lia Ascii String.
From stdpp Require Import base option list strings gmap.

Local Open Scope Z_scope.
Local Open Scope string_scope.
Local Open Scope list_scope.

(** ** JavaScript values the handlers manipulate *)

(** [s.split(',')]: never returns the empty array; the empty string splits
    into one empty field. *)
Fixpoint split (sep : ascii) (s : string) : list string :=
  match s with
  | EmptyString => [ EmptyString ]
  | String c rest =>
      if Ascii.eqb c sep then EmptyString :: split sep rest
      else match split sep rest with
           | [] => [ String c EmptyString ]
           | field :: fields => String c field :: fields
           end
  end.

Definition comma : ascii := Ascii.ascii_of_nat 44.

(** ECMAScript [ToBoolean] on the kinds of value the handlers test:
    [undefined] and the empty string are falsy; every object is truthy, and
    an array is an object, the empty array included. *)
Inductive JsValue :=
| JsUndefined
| JsString (s : string)
| JsObject.

Definition ToBoolean (x : JsValue) : bool :=
  match x with
  | JsUndefined => false
  | JsString s => negb (String.eqb s EmptyString)
  | JsObject => true
  end.

(** A value of type [string | undefined] is an [option string]. *)
Definition js_string (v : option string) : JsValue :=
  match v with
  | None => JsUndefined
  | Some s => JsString s
  end.

(** An array, whatever it holds. *)
Definition js_array {A : Type} (v : list A) : JsValue := JsObject.

(** [if (v)] for a [string | undefined]. *)
Definition truthy_string (v : option string) : bool := ToBoolean (js_string v).

(** [if (v)] for an array. *)
Definition truthy_array {A : Type} (v : list A) : bool := ToBoolean (js_array v).

(** What a template literal prints for a [string | undefined]. *)
Definition template (v : option string) : string :=
  match v with
  | None => "undefined"
  | Some s => s
  end.

(** ** Data model *)

Record Request := { kind : string; namespace : string; name : string }.

(** [entity.metadata.annotations] is optional in the catalog model. *)
Record Entity := { annotations : option (gmap string string) }.

(** [entity.metadata.annotations?.[key]] *)
Definition annotation (e : Entity) (key : string) : option string :=
  match annotations e with
  | None => None
  | Some m => m !! key
  end.

(** [entity.metadata.annotations?.[key]?.split(',')] *)
Definition annotation_list (e : Entity) (key : string) : option (list string) :=
  match annotation e key with
  | None => None
  | Some v => Some (split comma v)
  end.

(** [x ?? []] *)
Definition or_empty {A : Type} (v : option (list A)) : list A :=
  match v with
  | None => []
  | Some l => l
  end.

Record AnnotationNames := {
  projectKeyAnnotation : string;
  componentsAnnotation : string;
  componentRoadieAnnotation : string;
  filtersAnnotation : string }.

(** The handlers pass filters, issues and projects along without looking
    inside, except for the project's avatar URLs. *)
Record Filter := { filter_name : string; filter_shortName : string; filter_query : string }.
Record Issue := { issue_key : string }.
Record Project := {
  project_key : string;
  project_name : string;
  avatarUrls : gmap string string }.

Record BackstageUserIdentity := { userEntityRef : option string }.
Record BackstageIdentityResponse := { identity : option BackstageUserIdentity }.

(** [userIdentity?.identity?.userEntityRef] *)
Definition userEntityRef_of (u : option BackstageIdentityResponse) : option string :=
  match u with
  | None => None
  | Some r => match identity r with
              | None => None
              | Some i => userEntityRef i
              end
  end.

(** The fetch response of the image endpoint: its content-type header, the
    bytes of the body and whether the body stream breaks. *)
Record Avatar := {
  content_type : option string;
  avatar_body : list Byte.byte;
  stream_error : option string }.

(** ** Results, events and state *)

Inductive Res (A : Type) : Type :=
| Ok (a : A)
| Throw (err : string).
Arguments Ok {A} a.
Arguments Throw {A} err.

#[warnings="-register-all"]
Inductive Json :=
| JStr (s : string)
| JObj (fields : list (string * Json))
| JProject (p : option Project)
| JIssues (l : list Issue).

Inductive Body :=
| BJson (j : Json)
| BStatusText (code : Z)
| BStream (bytes : list Byte.byte).

Record Response := {
  status : Z;
  headers : list (string * string);
  body : option Body }.

(** A fresh express response: status 200, nothing sent. *)
Definition fresh_response : Response :=
  {| status := 200; headers := []; body := None |}.

Inductive Level := Info | Warn | Error.

(** Everything a handler does to the outside, in program order. *)
Inductive Event :=
| Log (lvl : Level) (msg : string)
| CallGetToken
| CallGetEntityByRef (entityRef : string) (token : string)
| CallGetProjectResponse (projectKey : option string)
| CallGetIdentity
| CallGetFiltersFromAnnotations (names : list string)
| CallGetIssuesFromFilters (projectKey : option string) (filters : list Filter)
| CallGetIssuesFromComponents (projectKey : option string) (components : list string)
| CallGetProjectAvatar (url : option string).

(** The calls that reach the issue tracker. *)
Definition is_tracker_call (e : Event) : bool :=
  match e with
  | CallGetProjectResponse _
  | CallGetIssuesFromFilters _ _
  | CallGetIssuesFromComponents _ _
  | CallGetProjectAvatar _ => true
  | _ => false
  end.

Definition is_issue_query (e : Event) : bool :=
  match e with
  | CallGetIssuesFromFilters _ _
  | CallGetIssuesFromComponents _ _ => true
  | _ => false
  end.

Definition is_avatar_fetch (e : Event) : bool :=
  match e with
  | CallGetProjectAvatar _ => true
  | _ => false
  end.

(** [const DEFAULT_TTL = 1000 * 60;] in milliseconds. *)
Definition DEFAULT_TTL : Z := 1000 * 60.

(** The state behind [getProjectResponse(projectKey, config, cache)]: the
    wall clock in milliseconds, the cache client (value and expiry per key)
    and the get-project requests sent to the issue tracker so far. *)
Record SvcState := {
  clock : Z;
  cache : gmap (option string) (Project * Z);
  upstream : list (option string) }.

Record HState := {
  svc : SvcState;
  trace : list Event;
  response : Response }.

(** ** The collaborators of the router

    [createRouter] receives its collaborators in [RouterOptions] and imports
    the rest from [../filters], [../api], [./service] and [../lib]; none of
    them is defined in [router.ts], so they are fields of a record.  An
    awaited call either yields a value or rejects. *)
Record World := {
  stringifyEntityRef : string → string → string → string;
  getToken : Res string;
  getEntityByRef : string → string → Res (option Entity);
  getAnnotations : AnnotationNames;
  getProjectResponse : option string → SvcState → Res (option Project) * SvcState;
  getIdentity : Request → Res (option BackstageIdentityResponse);
  getDefaultFilters : option string → list Filter;
  getFiltersFromAnnotations : list string → Res (list Filter);
  getIssuesFromFilters : option string → list Filter → Res (list Issue);
  getIssuesFromComponents : option string → list string → Res (list Issue);
  getProjectAvatar : option string → Res Avatar }.

(** ** The handler monad *)

Definition M (A : Type) : Type := HState → Res A * HState.

#[global] Instance M_ret : MRet M := λ A a s, (Ok a, s).

#[global] Instance M_bind : MBind M := λ A B f m s,
  match m s with
  | (Ok a, s') => f a s'
  | (Throw e, s') => (Throw e, s')
  end.

Definition emit (e : Event) : M unit := λ s,
  (Ok tt, {| svc := svc s; trace := trace s ++ [e]; response := response s |}).

(** [await f(args)] for a collaborator without state of its own. *)
Definition settle {A : Type} (r : Res A) : M A := λ s, (r, s).

Definition await {A : Type} (e : Event) (r : Res A) : M A :=
  emit e;; settle r.

Definition logger (lvl : Level) (msg : string) : M unit := emit (Log lvl msg).

Definition update_response (f : Response → Response) : M unit := λ s,
  (Ok tt, {| svc := svc s; trace := trace s; response := f (response s) |}).

(** [response.status(code)] *)
Definition response_status (code : Z) : M unit :=
  update_response (λ r, {| status := code; headers := headers r; body := body r |}).

(** [response.json(value)] *)
Definition response_json (j : Json) : M unit :=
  update_response (λ r, {| status := status r; headers := headers r; body := Some (BJson j) |}).

(** [response.setHeader(key, value)] *)
Definition response_setHeader (k v : string) : M unit :=
  update_response (λ r, {| status := status r; headers := (k, v) :: headers r; body := body r |}).

(** [response.sendStatus(code)] *)
Definition response_sendStatus (code : Z) : M unit :=
  update_response (λ r, {| status := code; headers := headers r; body := Some (BStatusText code) |}).

(** The body piped into the response. *)
Definition response_pipe (bytes : list Byte.byte) : M unit :=
  update_response (λ r, {| status := status r; headers := headers r; body := Some (BStream bytes) |}).

(** [await getProjectResponse(projectKey, config, cache)] *)
Definition run_service {A : Type} (f : SvcState → Res A * SvcState) : M A := λ s,
  let '(r, v) := f (svc s) in
  (r, {| svc := v; trace := trace s; response := response s |}).

Definition call_getProjectResponse (w : World) (projectKey : option string) : M (option Project) :=
  emit (CallGetProjectResponse projectKey);;
  run_service (getProjectResponse w projectKey).

Definition error_json (msg : string) : Json := JObj [("error", JStr msg)].

(** [try { x = await m } catch (err) { h err; return; }] followed by [k x]:
    only the awaited call is inside the [try] block. *)
Definition try_or_return {A B : Type} (m : M A) (h : string → M B) (k : A → M B) : M B := λ s,
  match m s with
  | (Ok a, s') => k a s'
  | (Throw e, s') => h e s'
  end.

(** ** The routes of [createRouter] *)

(** [router.get('/health', ...)] *)
Definition health : M unit :=
  response_json (JObj [("status", JStr "ok")]).

(** [router.get('/dashboards/by-entity-ref/:kind/:namespace/:name', ...)] *)
Definition dashboard (w : World) (request : Request) : M unit :=
  let entityRef := stringifyEntityRef w (kind request) (namespace request) (name request) in
  token ← await CallGetToken (getToken w);
  entity ← await (CallGetEntityByRef entityRef token) (getEntityByRef w entityRef token);
  let names := getAnnotations w in
  match entity with
  | None =>
      logger Info ("No entity found for " +:+ entityRef);;
      response_status 500;;
      response_json (error_json ("No entity found for " +:+ entityRef))
  | Some entity =>
      let projectKey := annotation entity (projectKeyAnnotation names) in
      if negb (truthy_string projectKey) then
        let error := "No jira.com/project-key annotation found for " +:+ entityRef in
        logger Info error;;
        response_status 404;;
        response_json (JStr error)
      else
        try_or_return (call_getProjectResponse w projectKey)
          (λ _,
            logger Error ("Could not find Jira project " +:+ template projectKey);;
            response_status 404;;
            response_json (error_json ("No Jira project found with key " +:+ template projectKey)))
          (λ projectResponse,
            userIdentity ← await CallGetIdentity (getIdentity w request);
            match userIdentity with
            | None => logger Warn "Could not find user identity"
            | Some _ => mret tt
            end;;
            let customFilterAnnotations := annotation_list entity (filtersAnnotation names) in
            let filters := getDefaultFilters w (userEntityRef_of userIdentity) in
            filters ←
              match customFilterAnnotations with
              | Some customFilterAnnotations =>
                  resolved ← await (CallGetFiltersFromAnnotations customFilterAnnotations)
                                   (getFiltersFromAnnotations w customFilterAnnotations);
                  mret (filters ++ resolved)
              | None => mret filters
              end;
            issues ← await (CallGetIssuesFromFilters projectKey filters)
                           (getIssuesFromFilters w projectKey filters);
            let components := or_empty (annotation_list entity (componentsAnnotation names)) in
            let components :=
              components ++ or_empty (annotation_list entity (componentRoadieAnnotation names)) in
            issues ←
              if truthy_array components then
                componentIssues ← await (CallGetIssuesFromComponents projectKey components)
                                        (getIssuesFromComponents w projectKey components);
                mret (issues ++ componentIssues)
              else mret issues;
            response_json (JObj [("project", JProject projectResponse); ("data", JIssues issues)]))
  end.

(** [router.get('/avatar/by-entity-ref/:kind/:namespace/:name', ...)].  The
    body bytes are those that arrive before the stream ends or breaks; when
    it breaks, the pipeline callback logs the error and sends status 400. *)
Definition avatar (w : World) (request : Request) : M unit :=
  let entityRef := stringifyEntityRef w (kind request) (namespace request) (name request) in
  token ← await CallGetToken (getToken w);
  entity ← await (CallGetEntityByRef entityRef token) (getEntityByRef w entityRef token);
  let names := getAnnotations w in
  match entity with
  | None =>
      logger Info ("No entity found for " +:+ entityRef);;
      response_status 500;;
      response_json (error_json ("No entity found for " +:+ entityRef))
  | Some entity =>
      let projectKey := annotation entity (projectKeyAnnotation names) in
      projectResponse ← call_getProjectResponse w projectKey;
      match projectResponse with
      | None =>
          logger Error "Could not find project in Jira";;
          response_status 400;;
          response_json
            (error_json ("No Jira project found for project key " +:+ template projectKey))
      | Some projectResponse =>
          let url := avatarUrls projectResponse !! "48x48" in
          fetched ← await (CallGetProjectAvatar url) (getProjectAvatar w url);
          let val := content_type fetched in
          response_setHeader "content-type" (default "" val);;
          response_pipe (avatar_body fetched);;
          match stream_error fetched with
          | Some err => logger Error err;; response_sendStatus 400
          | None => mret tt
          end
      end
  end.

(** Modelled from the spec: the generic error-handling boundary installed by
    [router.use(errorHandler())]; [errorHandler] comes from
    [@backstage/backend-common] and is not under src/.  "Any unexpected
    exception ... is expected to propagate to a generic error-handling
    boundary producing a 500 response", with a JSON error body. *)
Definition errorHandler (err : string) : M unit :=
  response_status 500;;
  response_json (error_json err).

Inductive Route :=
| Health
| Dashboard (request : Request)
| AvatarRoute (request : Request).

Definition handler (w : World) (r : Route) : M unit :=
  match r with
  | Health => health
  | Dashboard request => dashboard w request
  | AvatarRoute request => avatar w request
  end.

(** The state in which a request starts: a fresh response, an empty trace. *)
Definition incoming (v : SvcState) : HState :=
  {| svc := v; trace := []; response := fresh_response |}.

(** One request through the router: the route's handler, and the error
    handler when the handler rejects.  [unhandled] tells which of the two
    wrote the response. *)
Definition createRouter (w : World) (r : Route) (v : SvcState) : HState :=
  match handler w r (incoming v) with
  | (Ok _, s) => s
  | (Throw e, s) => snd (errorHandler e s)
  end.

Definition unhandled (w : World) (r : Route) (v : SvcState) : bool :=
  match fst (handler w r (incoming v)) with
  | Ok _ => false
  | Throw _ => true
  end.

(** ** The project look-up behind the cache *)

(** Modelled from the spec: the cache client of [CacheManager] (an external
    key-value cache "with get/set/TTL", not under src/).  An entry is stored
    with the time at which it expires and is served until then. *)
Definition cache_get (now : Z) (key : option string) (c : gmap (option string) (Project * Z)) : option Project :=
  match c !! key with
  | Some (p, expires) => if now >? expires then None else Some p
  | None => None
  end.

Definition cache_set (now ttl : Z) (key : option string) (p : Project)
    (c : gmap (option string) (Project * Z)) : gmap (option string) (Project * Z) :=
  <[ key := (p, now + ttl) ]> c.

(** Modelled from the spec: [getProjectResponse] of [./service], which is
    not under src/.  "Look up project metadata by key through a read-through
    cache: on miss, call the issue tracker, store result with a 60-second
    TTL, return it; on hit, return cached value without a network call";
    "a failed project lookup is not cached, only successful lookups are".
    [getProjectInfo] is the issue tracker's get-project call. *)
Definition getProjectResponse_cached (getProjectInfo : option string → Res Project)
    (projectKey : option string) (v : SvcState) : Res (option Project) * SvcState :=
  match cache_get (clock v) projectKey (cache v) with
  | Some p => (Ok (Some p), v)
  | None =>
      let called := upstream v ++ [projectKey] in
      match getProjectInfo projectKey with
      | Ok p =>
          (Ok (Some p),
           {| clock := clock v;
              cache := cache_set (clock v) DEFAULT_TTL projectKey p (cache v);
              upstream := called |})
      | Throw e =>
          (Throw e, {| clock := clock v; cache := cache v; upstream := called |})
      end
  end.


(** A world whose project look-up is the cached one. *)
Definition with_cache (w : World) (getProjectInfo : option string → Res Project) : World :=
  {| stringifyEntityRef := stringifyEntityRef w;
     getToken := getToken w;
     getEntityByRef := getEntityByRef w;
     getAnnotations := getAnnotations w;
     getProjectResponse := getProjectResponse_cached getProjectInfo;
     getIdentity := getIdentity w;
     getDefaultFilters := getDefaultFilters w;
     getFiltersFromAnnotations := getFiltersFromAnnotations w;
     getIssuesFromFilters := getIssuesFromFilters w;
     getIssuesFromComponents := getIssuesFromComponents w;
     getProjectAvatar := getProjectAvatar w |}.

(** The wall clock moves between requests. *)
Definition at_time (t : Z) (v : SvcState) : SvcState :=
  {| clock := t; cache := cache v; upstream := upstream v |}.


(** ** Derived notions used in the statements *)

(** [stringifyEntityRef({ kind, namespace, name })] for a request. *)
Definition entityRef_of (w : World) (request : Request) : string :=
  stringifyEntityRef w (kind request) (namespace request) (name request).

(** The catalog answers the request with [entity]. *)
Definition resolves (w : World) (request : Request) (entity : Entity) : Prop :=
  ∃ token, getToken w = Ok token ∧
           getEntityByRef w (entityRef_of w request) token = Ok (Some entity).

(** The catalog answers that there is no such entity. *)
Definition entity_missing (w : World) (request : Request) : Prop :=
  ∃ token, getToken w = Ok token ∧
           getEntityByRef w (entityRef_of w request) token = Ok None.

Definition projectKey_of (w : World) (entity : Entity) : option string :=
  annotation entity (projectKeyAnnotation (getAnnotations w)).

(** The component list the handler builds from the two annotations. *)
Definition components_of (w : World) (entity : Entity) : list string :=
  or_empty (annotation_list entity (componentsAnnotation (getAnnotations w))) ++
  or_empty (annotation_list entity (componentRoadieAnnotation (getAnnotations w))).

(** The filters that the names of the filter annotation resolve to; no
    annotation, no names to resolve. *)
Definition annotation_filters (w : World) (entity : Entity) : Res (list Filter) :=
  match annotation_list entity (filtersAnnotation (getAnnotations w)) with
  | Some names => getFiltersFromAnnotations w names
  | None => Ok []
  end.


(** The filter query of the request goes out and comes back. *)
Definition filter_query_answered (w : World) (request : Request) (v : SvcState)
    (entity : Entity) : Prop :=
  ∃ project v' user resolved byFilter,
    truthy_string (projectKey_of w entity) = true ∧
    getProjectResponse w (projectKey_of w entity) v = (Ok project, v') ∧
    getIdentity w request = Ok user ∧
    annotation_filters w entity = Ok resolved ∧
    getIssuesFromFilters w (projectKey_of w entity)
      (getDefaultFilters w (userEntityRef_of user) ++ resolved) = Ok byFilter.

Definition dashboard_json (project : option Project) (data : list Issue) : Json :=
  JObj [("project", JProject project); ("data", JIssues data)].

(** The log lines and calls a dashboard request leaves behind when every
    collaborator answers. *)
Definition dashboard_trace (w : World) (request : Request) (token : string)
    (entity : Entity) (user : option BackstageIdentityResponse)
    (filters : list Filter) : list Event :=
  [CallGetToken;
   CallGetEntityByRef (entityRef_of w request) token;
   CallGetProjectResponse (projectKey_of w entity);
   CallGetIdentity] ++
  match user with
  | None => [Log Warn "Could not find user identity"]
  | Some _ => []
  end ++
  match annotation_list entity (filtersAnnotation (getAnnotations w)) with
  | Some names => [CallGetFiltersFromAnnotations names]
  | None => []
  end ++
  [CallGetIssuesFromFilters (projectKey_of w entity) filters;
   CallGetIssuesFromComponents (projectKey_of w entity) (components_of w entity)].

(** ** Notions for the order of calls and for splitting *)

(** The collaborator behind a call; a log line is no call. *)
Inductive CallKind :=
| KToken
| KCatalog
| KLookup
| KIdentity
| KResolve
| KFilterQuery
| KComponentQuery
| KAvatar.

Definition call_kind (e : Event) : option CallKind :=
  match e with
  | Log _ _ => None
  | CallGetToken => Some KToken
  | CallGetEntityByRef _ _ => Some KCatalog
  | CallGetProjectResponse _ => Some KLookup
  | CallGetIdentity => Some KIdentity
  | CallGetFiltersFromAnnotations _ => Some KResolve
  | CallGetIssuesFromFilters _ _ => Some KFilterQuery
  | CallGetIssuesFromComponents _ _ => Some KComponentQuery
  | CallGetProjectAvatar _ => Some KAvatar
  end.

(** The collaborators a request called, in the order of the calls. *)
Definition calls (t : list Event) : list CallKind := omap call_kind t.

(** The awaited calls of the dashboard handler in program order; the filter
    names are resolved only when the entity has a filter annotation. *)
Definition dashboard_pipeline (resolve : bool) : list CallKind :=
  [KToken; KCatalog; KLookup; KIdentity] ++
  (if resolve then [KResolve] else []) ++
  [KFilterQuery; KComponentQuery].

(** The awaited calls of the avatar handler in program order. *)
Definition avatar_pipeline : list CallKind := [KToken; KCatalog; KLookup; KAvatar].

(** [fields.join(sep)], the inverse of [split]. *)
Fixpoint join (sep : ascii) (fields : list string) : string :=
  match fields with
  | [] => EmptyString
  | [field] => field
  | field :: rest => field +:+ String sep (join sep rest)
  end.

(** How often the character occurs in the string. *)
Fixpoint occurrences (c : ascii) (s : string) : nat :=
  match s with
  | EmptyString => 0
  | String c' rest => (if Ascii.eqb c' c then 1 else 0) + occurrences c rest
  end.

(** The error of a call that rejects. *)
Definition thrown {A : Type} (x : Res A) : option string :=
  match x with
  | Throw err => Some err
  | Ok _ => None
  end.

Definition request_of (r : Route) : option Request :=
  match r with
  | Health => None
  | Dashboard request => Some request
  | AvatarRoute request => Some request
  end.

(** The error with which the collaborator behind the call [e] rejects, if it
    does, for a request on route [r] that starts in the service state [v]. *)
Definition rejection (w : World) (r : Route) (v : SvcState) (e : Event) : option string :=
  match e with
  | Log _ _ => None
  | CallGetToken => thrown (getToken w)
  | CallGetEntityByRef entityRef token => thrown (getEntityByRef w entityRef token)
  | CallGetProjectResponse projectKey => thrown (fst (getProjectResponse w projectKey v))
  | CallGetIdentity =>
      match request_of r with
      | Some request => thrown (getIdentity w request)
      | None => None
      end
  | CallGetFiltersFromAnnotations names => thrown (getFiltersFromAnnotations w names)
  | CallGetIssuesFromFilters projectKey filters =>
      thrown (getIssuesFromFilters w projectKey filters)
  | CallGetIssuesFromComponents projectKey components =>
      thrown (getIssuesFromComponents w projectKey components)
  | CallGetProjectAvatar url => thrown (getProjectAvatar w url)
  end.

(** What the handler of a route returns and the state it leaves, before the
    error handler. *)
Definition outcome (w : World) (r : Route) (v : SvcState) : Res unit * HState :=
  handler w r (incoming v).

(** ** Fixtures: a catalog with one entity, an issue tracker with one project *)

Definition jira_annotations : AnnotationNames :=
  {| projectKeyAnnotation := "jira.com/project-key";
     componentsAnnotation := "jira.com/components";
     componentRoadieAnnotation := "jira/component";
     filtersAnnotation := "jira.com/filter-ids" |}.

Definition bs_project : Project :=
  {| project_key := "BS";
     project_name := "Backstage";
     avatarUrls := {[ "48x48" := "https://jira.example.com/avatar/BS.png" ]} |}.

Definition open_issues : Filter :=
  {| filter_name := "Open Issues"; filter_shortName := "OPEN";
     filter_query := "resolution = Unresolved" |}.

Definition incoming_issues : Filter :=
  {| filter_name := "Incoming Issues"; filter_shortName := "INCOMING";
     filter_query := "status = New" |}.

Definition assigned_to_me : Filter :=
  {| filter_name := "Assigned to me"; filter_shortName := "ME";
     filter_query := "assignee = currentUser()" |}.

Definition named_filter (id : string) : Filter :=
  {| filter_name := id; filter_shortName := id; filter_query := "filter = " +:+ id |}.

Definition png : Avatar :=
  {| content_type := Some "image/png"; avatar_body := [Byte.x89; Byte.x50]; stream_error := None |}.

Definition guest : BackstageIdentityResponse :=
  {| identity := Some {| userEntityRef := Some "user:default/guest" |} |}.

(** An entity made of its annotations. *)
Definition entity_with (l : list (string * string)) : Entity :=
  {| annotations := Some (list_to_map l) |}.

Definition bare_entity : Entity := {| annotations := None |}.

Definition bs_entity : Entity :=
  entity_with [("jira.com/project-key", "BS")].

Definition bs_entity_components : Entity :=
  entity_with [("jira.com/project-key", "BS");
               ("jira.com/components", "A");
               ("jira/component", "B")].

Definition bs_entity_both : Entity :=
  entity_with [("jira.com/project-key", "BS");
               ("jira.com/components", "A,C");
               ("jira/component", "B,D")].

Definition bs_entity_filters : Entity :=
  entity_with [("jira.com/project-key", "BS");
               ("jira.com/filter-ids", "10001,10002");
               ("jira.com/components", "A,C")].

(** A tracker that knows the project [BS] only, without a cache. *)
Definition lookup_bs (key : option string) (v : SvcState) : Res (option Project) * SvcState :=
  match key with
  | Some "BS" => (Ok (Some bs_project), v)
  | _ => (Ok None, v)
  end.

(** A tracker whose project look-up rejects. *)
Definition lookup_rejects (key : option string) (v : SvcState) : Res (option Project) * SvcState :=
  (Throw "Request failed with status 503", v).

Definition info_bs (key : option string) : Res Project :=
  match key with
  | Some "BS" => Ok bs_project
  | _ => Throw "404"
  end.

Definition world_of (entity : option Entity)
    (lookup : option string → SvcState → Res (option Project) * SvcState)
    (user : option BackstageIdentityResponse) : World :=
  {| stringifyEntityRef := λ k ns n, k +:+ ":" +:+ ns +:+ "/" +:+ n;
     getToken := Ok "service-token";
     getEntityByRef := λ _ _, Ok entity;
     getAnnotations := jira_annotations;
     getProjectResponse := lookup;
     getIdentity := λ _, Ok user;
     getDefaultFilters := λ user_ref,
       match user_ref with
       | Some _ => [open_issues; incoming_issues; assigned_to_me]
       | None => [open_issues; incoming_issues]
       end;
     getFiltersFromAnnotations := λ names, Ok (named_filter <$> names);
     getIssuesFromFilters := λ _ _, Ok [ {| issue_key := "BS-1" |}; {| issue_key := "BS-2" |} ];
     getIssuesFromComponents := λ _ comps,
       match comps with
       | [] => Ok []
       | _ => Ok [ {| issue_key := "BS-2" |}; {| issue_key := "BS-3" |} ]
       end;
     getProjectAvatar := λ _, Ok png |}.

Definition component_request : Request :=
  {| kind := "component"; namespace := "default"; name := "backstage" |}.

Definition idle : SvcState := {| clock := 0; cache := ∅; upstream := [] |}.

(** The world [w] with one collaborator rejecting. *)
Definition rejecting_token (w : World) (err : string) : World :=
  {| stringifyEntityRef := stringifyEntityRef w;
     getToken := Throw err;
     getEntityByRef := getEntityByRef w;
     getAnnotations := getAnnotations w;
     getProjectResponse := getProjectResponse w;
     getIdentity := getIdentity w;
     getDefaultFilters := getDefaultFilters w;
     getFiltersFromAnnotations := getFiltersFromAnnotations w;
     getIssuesFromFilters := getIssuesFromFilters w;
     getIssuesFromComponents := getIssuesFromComponents w;
     getProjectAvatar := getProjectAvatar w |}.

Definition rejecting_catalog (w : World) (err : string) : World :=
  {| stringifyEntityRef := stringifyEntityRef w;
     getToken := getToken w;
     getEntityByRef := λ _ _, Throw err;
     getAnnotations := getAnnotations w;
     getProjectResponse := getProjectResponse w;
     getIdentity := getIdentity w;
     getDefaultFilters := getDefaultFilters w;
     getFiltersFromAnnotations := getFiltersFromAnnotations w;
     getIssuesFromFilters := getIssuesFromFilters w;
     getIssuesFromComponents := getIssuesFromComponents w;
     getProjectAvatar := getProjectAvatar w |}.

Definition rejecting_resolution (w : World) (err : string) : World :=
  {| stringifyEntityRef := stringifyEntityRef w;
     getToken := getToken w;
     getEntityByRef := getEntityByRef w;
     getAnnotations := getAnnotations w;
     getProjectResponse := getProjectResponse w;
     getIdentity := getIdentity w;
     getDefaultFilters := getDefaultFilters w;
     getFiltersFromAnnotations := λ _, Throw err;
     getIssuesFromFilters := getIssuesFromFilters w;
     getIssuesFromComponents := getIssuesFromComponents w;
     getProjectAvatar := getProjectAvatar w |}.

Definition rejecting_filter_query (w : World) (err : string) : World :=
  {| stringifyEntityRef := stringifyEntityRef w;
     getToken := getToken w;
     getEntityByRef := getEntityByRef w;
     getAnnotations := getAnnotations w;
     getProjectResponse := getProjectResponse w;
     getIdentity := getIdentity w;
     getDefaultFilters := getDefaultFilters w;
     getFiltersFromAnnotations := getFiltersFromAnnotations w;
     getIssuesFromFilters := λ _ _, Throw err;
     getIssuesFromComponents := getIssuesFromComponents w;
     getProjectAvatar := getProjectAvatar w |}.

Definition rejecting_component_query (w : World) (err : string) : World :=
  {| stringifyEntityRef := stringifyEntityRef w;
     getToken := getToken w;
     getEntityByRef := getEntityByRef w;
     getAnnotations := getAnnotations w;
     getProjectResponse := getProjectResponse w;
     getIdentity := getIdentity w;
     getDefaultFilters := getDefaultFilters w;
     getFiltersFromAnnotations := getFiltersFromAnnotations w;
     getIssuesFromFilters := getIssuesFromFilters w;
     getIssuesFromComponents := λ _ _, Throw err;
     getProjectAvatar := getProjectAvatar w |}.

Definition rejecting_avatar_fetch (w : World) (err : string) : World :=
  {| stringifyEntityRef := stringifyEntityRef w;
     getToken := getToken w;
     getEntityByRef := getEntityByRef w;
     getAnnotations := getAnnotations w;
     getProjectResponse := getProjectResponse w;
     getIdentity := getIdentity w;
     getDefaultFilters := getDefaultFilters w;
     getFiltersFromAnnotations := getFiltersFromAnnotations w;
     getIssuesFromFilters := getIssuesFromFilters w;
     getIssuesFromComponents := getIssuesFromComponents w;
     getProjectAvatar := λ _, Throw err |}.

(** A look-up that resolves without a project. *)
Definition lookup_nothing (key : option string) (v : SvcState) : Res (option Project) * SvcState :=
  (Ok None, v).

Definition empty_key_entity : Entity :=
  entity_with [("jira.com/project-key", "")].

Definition roadie_entity : Entity :=
  entity_with [("jira.com/project-key", "BS"); ("jira/component", "B,D")].

Definition primary_entity : Entity :=
  entity_with [("jira.com/project-key", "BS"); ("jira.com/components", "A,C")].


(** * Properties of the routes *)

(** ** Running a handler *)

Ltac run_handler :=
  unfold createRouter, unhandled, handler, dashboard, avatar, health, errorHandler,
    try_or_return, call_getProjectResponse, run_service, await, settle, logger, emit,
    response_status, response_json, response_setHeader, response_sendStatus,
    response_pipe, update_response, incoming, mbind, M_bind, mret, M_ret;
  simpl.

Ltac expose :=
  unfold entity_missing, resolves, projectKey_of, components_of, annotation_filters,
    entityRef_of, dashboard_json in *.

Ltac run_outcome := unfold outcome; run_handler.

Ltac use_answers :=
  simpl; repeat (match goal with H : ?x = _ |- context [?x] => rewrite H end; simpl).

Ltac split_last :=
  first [ eexists [], _; split; [reflexivity|]
        | eexists [_], _; split; [reflexivity|]
        | eexists [_; _], _; split; [reflexivity|]
        | eexists [_; _; _], _; split; [reflexivity|]
        | eexists [_; _; _; _], _; split; [reflexivity|]
        | eexists [_; _; _; _; _], _; split; [reflexivity|]
        | eexists [_; _; _; _; _; _], _; split; [reflexivity|]
        | eexists [_; _; _; _; _; _; _], _; split; [reflexivity|] ].

Section Runs.
Variables (w : World) (request : Request) (v : SvcState).
Variables (token : string).
Hypothesis Htoken : getToken w = Ok token.

Lemma dashboard_run_no_entity :
  getEntityByRef w (entityRef_of w request) token = Ok None →
  unhandled w (Dashboard request) v = false ∧
  createRouter w (Dashboard request) v =
    {| svc := v;
       trace := [CallGetToken;
                 CallGetEntityByRef (entityRef_of w request) token;
                 Log Info ("No entity found for " +:+ entityRef_of w request)];
       response :=
         {| status := 500; headers := [];
            body := Some (BJson (error_json
                      ("No entity found for " +:+ entityRef_of w request))) |} |}.
Proof.
  expose. intros Hentity. run_handler.
  rewrite Htoken. simpl. rewrite Hentity. done.
Qed.

Variable entity : Entity.
Hypothesis Hentity : getEntityByRef w (entityRef_of w request) token = Ok (Some entity).

Lemma dashboard_run_falsy_key :
  truthy_string (projectKey_of w entity) = false →
  unhandled w (Dashboard request) v = false ∧
  createRouter w (Dashboard request) v =
    {| svc := v;
       trace := [CallGetToken;
                 CallGetEntityByRef (entityRef_of w request) token;
                 Log Info ("No jira.com/project-key annotation found for "
                           +:+ entityRef_of w request)];
       response :=
         {| status := 404; headers := [];
            body := Some (BJson (JStr
                      ("No jira.com/project-key annotation found for "
                       +:+ entityRef_of w request))) |} |}.
Proof.
  expose. intros Hkey. run_handler.
  rewrite Htoken. simpl. rewrite Hentity. simpl. rewrite Hkey. done.
Qed.

Hypothesis Hkey : truthy_string (projectKey_of w entity) = true.

Lemma dashboard_run_lookup_throws err v' :
  getProjectResponse w (projectKey_of w entity) v = (Throw err, v') →
  unhandled w (Dashboard request) v = false ∧
  createRouter w (Dashboard request) v =
    {| svc := v';
       trace := [CallGetToken;
                 CallGetEntityByRef (entityRef_of w request) token;
                 CallGetProjectResponse (projectKey_of w entity);
                 Log Error ("Could not find Jira project "
                            +:+ template (projectKey_of w entity))];
       response :=
         {| status := 404; headers := [];
            body := Some (BJson (error_json
                      ("No Jira project found with key "
                       +:+ template (projectKey_of w entity)))) |} |}.
Proof.
  expose. intros Hlookup. run_handler.
  rewrite Htoken. simpl. rewrite Hentity. simpl. rewrite Hkey. simpl.
  rewrite Hlookup. done.
Qed.


Variables (project : option Project) (v' : SvcState).
Variables (user : option BackstageIdentityResponse) (resolved : list Filter).
Hypothesis Hlookup : getProjectResponse w (projectKey_of w entity) v = (Ok project, v').
Hypothesis Hidentity : getIdentity w request = Ok user.
Hypothesis Hresolved : annotation_filters w entity = Ok resolved.

(** Up to the filter query, whatever that query and the component query
    answer: the filter query is the only one of its kind, and the component
    query, if any, carries the list built from the two annotations. *)
Lemma dashboard_queries e :
  In e (trace (createRouter w (Dashboard request) v)) →
  is_issue_query e = true →
  e = CallGetIssuesFromFilters (projectKey_of w entity)
        (getDefaultFilters w (userEntityRef_of user) ++ resolved) ∨
  e = CallGetIssuesFromComponents (projectKey_of w entity) (components_of w entity).
Proof.
  expose. run_handler.
  rewrite Htoken. simpl. rewrite Hentity. simpl. rewrite Hkey. simpl.
  rewrite Hlookup. simpl. rewrite Hidentity. simpl.
  intros Hin Hq.
  repeat (case_match; simpl in *; simplify_eq);
    rewrite ?app_nil_r in *;
    repeat (destruct Hin as [<-|Hin]; try discriminate; auto); done.
Qed.

Lemma dashboard_filter_query_issued :
  In (CallGetIssuesFromFilters (projectKey_of w entity)
        (getDefaultFilters w (userEntityRef_of user) ++ resolved))
     (trace (createRouter w (Dashboard request) v)).
Proof.
  expose. run_handler.
  rewrite Htoken. simpl. rewrite Hentity. simpl. rewrite Hkey. simpl.
  rewrite Hlookup. simpl. rewrite Hidentity. simpl.
  repeat (case_match; simpl in *; simplify_eq);
    rewrite ?app_nil_r in *; simpl; tauto.
Qed.

Variable byFilter : list Issue.
Hypothesis HbyFilter :
  getIssuesFromFilters w (projectKey_of w entity)
    (getDefaultFilters w (userEntityRef_of user) ++ resolved) = Ok byFilter.

(** The component query is sent once the filter query has answered,
    whatever the component list holds. *)
Lemma dashboard_component_query_issued :
  In (CallGetIssuesFromComponents (projectKey_of w entity) (components_of w entity))
     (trace (createRouter w (Dashboard request) v)).
Proof.
  expose. run_handler.
  rewrite Htoken. simpl. rewrite Hentity. simpl. rewrite Hkey. simpl.
  rewrite Hlookup. simpl. rewrite Hidentity. simpl.
  repeat (case_match; simpl in *; simplify_eq);
    rewrite ?app_nil_r in *; simplify_eq; simpl; first [tauto | congruence].
Qed.

Variable byComponent : list Issue.
Hypothesis HbyComponent :
  getIssuesFromComponents w (projectKey_of w entity) (components_of w entity)
  = Ok byComponent.

Lemma dashboard_run_ok :
  unhandled w (Dashboard request) v = false ∧
  createRouter w (Dashboard request) v =
    {| svc := v';
       trace := dashboard_trace w request token entity user
                  (getDefaultFilters w (userEntityRef_of user) ++ resolved);
       response :=
         {| status := 200; headers := [];
            body := Some (BJson (dashboard_json project (byFilter ++ byComponent))) |} |}.
Proof.
  unfold dashboard_trace. expose. run_handler.
  rewrite Htoken. simpl. rewrite Hentity. simpl. rewrite Hkey. simpl.
  rewrite Hlookup. simpl. rewrite Hidentity. simpl.
  destruct user as [u|]; simpl;
    destruct (annotation_list entity _) as [names|]; simpl in *;
    rewrite ?Hresolved; simplify_eq; rewrite ?app_nil_r in *; simpl;
    rewrite ?HbyFilter; simpl; rewrite ?HbyComponent; done.
Qed.
End Runs.

Section AvatarRuns.
Variables (w : World) (request : Request) (v : SvcState).
Variables (token : string) (entity : Entity).
Hypothesis Htoken : getToken w = Ok token.
Hypothesis Hentity : getEntityByRef w (entityRef_of w request) token = Ok (Some entity).

(** The avatar handler goes from the annotation straight to the look-up. *)
Lemma avatar_lookup_called :
  In (CallGetProjectResponse (projectKey_of w entity))
     (trace (createRouter w (AvatarRoute request) v)).
Proof.
  expose. run_handler.
  rewrite Htoken. simpl. rewrite Hentity. simpl.
  repeat (case_match; simpl in *; simplify_eq); simpl; tauto.
Qed.

Lemma avatar_run_lookup_none v' :
  getProjectResponse w (projectKey_of w entity) v = (Ok None, v') →
  unhandled w (AvatarRoute request) v = false ∧
  createRouter w (AvatarRoute request) v =
    {| svc := v';
       trace := [CallGetToken;
                 CallGetEntityByRef (entityRef_of w request) token;
                 CallGetProjectResponse (projectKey_of w entity);
                 Log Error "Could not find project in Jira"];
       response :=
         {| status := 400; headers := [];
            body := Some (BJson (error_json
                      ("No Jira project found for project key "
                       +:+ template (projectKey_of w entity)))) |} |}.
Proof.
  expose. intros Hlookup. run_handler.
  rewrite Htoken. simpl. rewrite Hentity. simpl. rewrite Hlookup. done.
Qed.

(** A look-up that rejects leaves the handler: nothing in it catches. *)
Lemma avatar_run_lookup_throws err v' :
  getProjectResponse w (projectKey_of w entity) v = (Throw err, v') →
  unhandled w (AvatarRoute request) v = true ∧
  createRouter w (AvatarRoute request) v =
    {| svc := v';
       trace := [CallGetToken;
                 CallGetEntityByRef (entityRef_of w request) token;
                 CallGetProjectResponse (projectKey_of w entity)];
       response :=
         {| status := 500; headers := [];
            body := Some (BJson (error_json err)) |} |}.
Proof.
  expose. intros Hlookup. run_handler.
  rewrite Htoken. simpl. rewrite Hentity. simpl. rewrite Hlookup. done.
Qed.
End AvatarRuns.

(** A dashboard response carrying project and issues comes from one path
    only: every collaborator answered, and the data is what the two issue
    queries returned, the filter query's issues first. *)
Lemma dashboard_success_inv w request v entity project data :
  resolves w request entity →
  body (response (createRouter w (Dashboard request) v)) =
    Some (BJson (dashboard_json project data)) →
  ∃ v' user resolved byFilter byComponent,
    truthy_string (projectKey_of w entity) = true ∧
    getProjectResponse w (projectKey_of w entity) v = (Ok project, v') ∧
    getIdentity w request = Ok user ∧
    annotation_filters w entity = Ok resolved ∧
    getIssuesFromFilters w (projectKey_of w entity)
      (getDefaultFilters w (userEntityRef_of user) ++ resolved) = Ok byFilter ∧
    getIssuesFromComponents w (projectKey_of w entity) (components_of w entity)
      = Ok byComponent ∧
    data = byFilter ++ byComponent.
Proof.
  intros (token & Htoken & Hentity). expose. run_handler.
  rewrite Htoken. simpl. rewrite Hentity. simpl.
  destruct (truthy_string _) eqn:Hkey; simpl; [|discriminate].
  destruct (getProjectResponse w _ v) as [[found|err] v'] eqn:Hlookup; simpl;
    [|discriminate].
  destruct (getIdentity w request) as [user|err] eqn:Hidentity; simpl; [|discriminate].
  intros Hbody. exists v', user.
  destruct (annotation_list entity (filtersAnnotation _)) as [names|] eqn:Hnames.
  - destruct user as [user|]; simpl in *;
      (destruct (getFiltersFromAnnotations w names) as [resolved|err] eqn:Hres;
         simpl in *; [|discriminate]);
      exists resolved;
      (match type of Hbody with
       | context [getIssuesFromFilters w ?k ?f] =>
           destruct (getIssuesFromFilters w k f) as [byFilter|err1] eqn:HbyF;
           simpl in *; [|discriminate]
       end);
      (match type of Hbody with
       | context [getIssuesFromComponents w ?k ?c] =>
           destruct (getIssuesFromComponents w k c) as [byComp|err2] eqn:HbyC;
           simpl in *; [|discriminate]
       end);
      exists byFilter, byComp; simplify_eq; done.
  - exists []. rewrite app_nil_r.
    destruct user as [user|]; simpl in *;
      (match type of Hbody with
       | context [getIssuesFromFilters w ?k ?f] =>
           destruct (getIssuesFromFilters w k f) as [byFilter|err1] eqn:HbyF;
           simpl in *; [|discriminate]
       end);
      (match type of Hbody with
       | context [getIssuesFromComponents w ?k ?c] =>
           destruct (getIssuesFromComponents w k c) as [byComp|err2] eqn:HbyC;
           simpl in *; [|discriminate]
       end);
      exists byFilter, byComp; simplify_eq; done.
Qed.

(** Whatever happens to the request, a component query it sends carries the
    project key and the list built from the two component annotations. *)
Lemma dashboard_component_queries w request v entity key components :
  resolves w request entity →
  In (CallGetIssuesFromComponents key components)
     (trace (createRouter w (Dashboard request) v)) →
  key = projectKey_of w entity ∧ components = components_of w entity.
Proof.
  intros (token & Htoken & Hentity). expose. run_handler.
  rewrite Htoken. simpl. rewrite Hentity. simpl.
  intros Hin.
  repeat (case_match; simpl in *; simplify_eq);
    repeat (destruct Hin as [Heq|Hin]; [by inversion Heq|]); done.
Qed.

Lemma split_not_nil sep s : split sep s ≠ [].
Proof.
  destruct s as [|c s]; simpl; [done|].
  destruct (Ascii.eqb c sep); [done|]. by destruct (split sep s).
Qed.


(** What of C8 the code does: a look-up that yields no project is answered
    with 400 and the JSON body [{error}], and no image is fetched. *)
Lemma avatar_lookup_none_400 w request v entity v' :
  resolves w request entity →
  getProjectResponse w (projectKey_of w entity) v = (Ok None, v') →
  status (response (createRouter w (AvatarRoute request) v)) = 400 ∧
  body (response (createRouter w (AvatarRoute request) v)) =
    Some (BJson (error_json ("No Jira project found for project key "
                             +:+ template (projectKey_of w entity)))) ∧
  Forall (λ e, is_avatar_fetch e = false)
         (trace (createRouter w (AvatarRoute request) v)).
Proof.
  intros (token & Htoken & Hentity) Hlookup.
  destruct (avatar_run_lookup_none w request v token entity Htoken Hentity v' Hlookup)
    as [_ ->].
  simpl. repeat split. repeat constructor.
Qed.

(** A look-up that rejects is not answered by the handler; no image is
    fetched either. *)
Lemma avatar_lookup_throws_unhandled w request v entity err v' :
  resolves w request entity →
  getProjectResponse w (projectKey_of w entity) v = (Throw err, v') →
  unhandled w (AvatarRoute request) v = true ∧
  status (response (createRouter w (AvatarRoute request) v)) = 500 ∧
  Forall (λ e, is_avatar_fetch e = false)
         (trace (createRouter w (AvatarRoute request) v)).
Proof.
  intros (token & Htoken & Hentity) Hlookup.
  destruct (avatar_run_lookup_throws w request v token entity Htoken Hentity err v'
              Hlookup) as [-> ->].
  simpl. repeat split. repeat constructor.
Qed.

(** ** The cache *)





Section CachedLookup.
Variable getProjectInfo : option string → Res Project.
Variables (key : option string) (v : SvcState).



End CachedLookup.

(** ** Splitting annotation values *)

Example split_two : split comma "10001,10002" = ["10001"; "10002"].
Proof. reflexivity. Qed.

Example split_empty : split comma "" = [""].
Proof. reflexivity. Qed.

Example split_trailing : split comma "A,,B," = ["A"; ""; "B"; ""].
Proof. reflexivity. Qed.

(** ** The dashboard route: what is not found *)

(** C1, as stated, fails: when the catalog has no such entity the dashboard
    handler itself answers 500, not 404, and no unhandled error is involved. *)
Lemma dashboard_missing_entity_answers_500 :
  entity_missing (world_of None lookup_bs None) component_request ∧
  unhandled (world_of None lookup_bs None) (Dashboard component_request) idle = false ∧
  status (response (createRouter (world_of None lookup_bs None)
                      (Dashboard component_request) idle)) = 500 ∧
  status (response (createRouter (world_of None lookup_bs None)
                      (Dashboard component_request) idle)) ≠ 404.
Proof.
  split; [by exists "service-token"|].
  split; [reflexivity|]. split; [reflexivity|]. vm_compute. discriminate.
Qed.

(** C1, amended: on the dashboard route a missing entity is answered with
    status 500 and the JSON body [{error}]; a missing (or empty) project-key
    annotation with status 404 and a JSON string; a project look-up that
    rejects with status 404 and the JSON body [{error}].  Status 500 comes
    from nowhere else than a missing entity or an unhandled error. *)
Theorem dashboard_not_found_statuses w request v :
  (entity_missing w request →
     status (response (createRouter w (Dashboard request) v)) = 500 ∧
     body (response (createRouter w (Dashboard request) v)) =
       Some (BJson (error_json ("No entity found for " +:+ entityRef_of w request)))) ∧
  (∀ entity, resolves w request entity →
     truthy_string (projectKey_of w entity) = false →
     status (response (createRouter w (Dashboard request) v)) = 404 ∧
     body (response (createRouter w (Dashboard request) v)) =
       Some (BJson (JStr ("No jira.com/project-key annotation found for "
                          +:+ entityRef_of w request)))) ∧
  (∀ entity err v', resolves w request entity →
     truthy_string (projectKey_of w entity) = true →
     getProjectResponse w (projectKey_of w entity) v = (Throw err, v') →
     status (response (createRouter w (Dashboard request) v)) = 404 ∧
     body (response (createRouter w (Dashboard request) v)) =
       Some (BJson (error_json ("No Jira project found with key "
                                +:+ template (projectKey_of w entity))))) ∧
  (status (response (createRouter w (Dashboard request) v)) = 500 →
     unhandled w (Dashboard request) v = true ∨ entity_missing w request).
Proof.
  split; [|split; [|split]].
  - intros (token & Htoken & Hnone).
    by destruct (dashboard_run_no_entity w request v token Htoken Hnone) as [_ ->].
  - intros entity (token & Htoken & Hentity) Hfalsy.
    by destruct (dashboard_run_falsy_key w request v token Htoken entity Hentity Hfalsy)
      as [_ ->].
  - intros entity err v' (token & Htoken & Hentity) Hkey Hthrows.
    by destruct (dashboard_run_lookup_throws w request v token Htoken entity Hentity
                   Hkey err v' Hthrows) as [_ ->].
  - expose. run_handler.
    repeat (case_match; simpl in *; simplify_eq;
            try (by left); try (right; eauto; fail)).
Qed.

Lemma dashboard_not_found_statuses_witness :
  (status (response (createRouter (world_of None lookup_bs None)
                       (Dashboard component_request) idle)) = 500 ∧
   body (response (createRouter (world_of None lookup_bs None)
                     (Dashboard component_request) idle)) =
     Some (BJson (error_json "No entity found for component:default/backstage"))) ∧
  (status (response (createRouter (world_of (Some bare_entity) lookup_bs None)
                       (Dashboard component_request) idle)) = 404 ∧
   body (response (createRouter (world_of (Some bare_entity) lookup_bs None)
                     (Dashboard component_request) idle)) =
     Some (BJson (JStr
       "No jira.com/project-key annotation found for component:default/backstage"))) ∧
  (status (response (createRouter (world_of (Some bs_entity) lookup_rejects None)
                       (Dashboard component_request) idle)) = 404 ∧
   body (response (createRouter (world_of (Some bs_entity) lookup_rejects None)
                     (Dashboard component_request) idle)) =
     Some (BJson (error_json "No Jira project found with key BS"))) ∧
  (unhandled (world_of None lookup_bs None) (Dashboard component_request) idle = true ∨
   entity_missing (world_of None lookup_bs None) component_request).
Proof.
  split; [|split; [|split]].
  - apply (dashboard_not_found_statuses (world_of None lookup_bs None)
             component_request idle).
    exists "service-token". split; reflexivity.
  - apply (dashboard_not_found_statuses (world_of (Some bare_entity) lookup_bs None)
             component_request idle) with (entity := bare_entity).
    + exists "service-token". split; reflexivity.
    + reflexivity.
  - apply (dashboard_not_found_statuses (world_of (Some bs_entity) lookup_rejects None)
             component_request idle)
      with (entity := bs_entity) (err := "Request failed with status 503") (v' := idle).
    + exists "service-token". split; reflexivity.
    + vm_compute. reflexivity.
    + reflexivity.
  - apply (dashboard_not_found_statuses (world_of None lookup_bs None)
             component_request idle).
    reflexivity.
Defined.

(** C2: an entity without the project-key annotation gets status 404 from the
    dashboard route, and the request reaches the issue tracker in no way: no
    project look-up, no issue query, no avatar fetch, and the service state
    (cache and tracker log) is as it was. *)
Theorem dashboard_without_project_key w request v entity :
  resolves w request entity →
  projectKey_of w entity = None →
  status (response (createRouter w (Dashboard request) v)) = 404 ∧
  Forall (λ e, is_tracker_call e = false)
         (trace (createRouter w (Dashboard request) v)) ∧
  svc (createRouter w (Dashboard request) v) = v.
Proof.
  intros (token & Htoken & Hentity) Hnone.
  assert (Hfalsy : truthy_string (projectKey_of w entity) = false) by by rewrite Hnone.
  destruct (dashboard_run_falsy_key w request v token Htoken entity Hentity Hfalsy)
    as [_ ->].
  simpl. repeat split. repeat constructor.
Qed.

Lemma dashboard_without_project_key_witness :
  status (response (createRouter (world_of (Some bare_entity) lookup_bs (Some guest))
                      (Dashboard component_request) idle)) = 404 ∧
  Forall (λ e, is_tracker_call e = false)
         (trace (createRouter (world_of (Some bare_entity) lookup_bs (Some guest))
                   (Dashboard component_request) idle)) ∧
  svc (createRouter (world_of (Some bare_entity) lookup_bs (Some guest))
         (Dashboard component_request) idle) = idle.
Proof.
  apply (dashboard_without_project_key (world_of (Some bare_entity) lookup_bs (Some guest))
           component_request idle bare_entity).
  - exists "service-token". split; reflexivity.
  - reflexivity.
Defined.

(** ** The project look-up and its cache *)




(** The second of these requests answers with the cached project. *)
Example second_request_served_from_cache :
  let cached := with_cache (world_of (Some bs_entity) lookup_bs (Some guest)) info_bs in
  let v1 := svc (createRouter cached (Dashboard component_request) (at_time 1000 idle)) in
  ∃ data,
    body (response (createRouter cached (Dashboard component_request)
                      (at_time 60999 v1))) =
      Some (BJson (dashboard_json (Some bs_project) data)).
Proof. eexists. vm_compute. reflexivity. Qed.

(** The same three requests, counted. *)
Example three_requests_two_lookups :
  let cached := with_cache (world_of (Some bs_entity) lookup_bs (Some guest)) info_bs in
  let v1 := svc (createRouter cached (Dashboard component_request) (at_time 1000 idle)) in
  let v2 := svc (createRouter cached (Dashboard component_request) (at_time 60999 v1)) in
  let v3 := svc (createRouter cached (Dashboard component_request) (at_time 61001 v2)) in
  upstream v1 = [Some "BS"] ∧ upstream v2 = [Some "BS"] ∧
  upstream v3 = [Some "BS"; Some "BS"].
Proof. vm_compute. done. Qed.

(** A look-up the tracker rejects leaves nothing in the cache: the next
    request for the key asks the tracker again. *)
Example failed_lookup_not_cached :
  let cached := with_cache (world_of (Some bs_entity) lookup_bs (Some guest))
                  (λ _, Throw "503") in
  let v1 := svc (createRouter cached (Dashboard component_request) (at_time 1000 idle)) in
  let v2 := svc (createRouter cached (Dashboard component_request) (at_time 2000 v1)) in
  cache v2 = ∅ ∧ upstream v2 = [Some "BS"; Some "BS"].
Proof. vm_compute. done. Qed.

(** ** The dashboard route: filters, components and issues *)

(** C7: the filter list of the filter query is the default filters, built
    from the configuration and the caller's user reference, followed by the
    filters the annotation resolves to; the request sends no filter query
    with another list, and in the list every default filter stands before
    every resolved one. *)
Theorem dashboard_filters_defaults_first w request v entity project v' user resolved :
  resolves w request entity →
  truthy_string (projectKey_of w entity) = true →
  getProjectResponse w (projectKey_of w entity) v = (Ok project, v') →
  getIdentity w request = Ok user →
  annotation_filters w entity = Ok resolved →
  In (CallGetIssuesFromFilters (projectKey_of w entity)
        (getDefaultFilters w (userEntityRef_of user) ++ resolved))
     (trace (createRouter w (Dashboard request) v)) ∧
  (∀ key filters,
     In (CallGetIssuesFromFilters key filters)
        (trace (createRouter w (Dashboard request) v)) →
     filters = getDefaultFilters w (userEntityRef_of user) ++ resolved) ∧
  (∀ i d, getDefaultFilters w (userEntityRef_of user) !! i = Some d →
     (getDefaultFilters w (userEntityRef_of user) ++ resolved) !! i = Some d) ∧
  (∀ j r, resolved !! j = Some r →
     (getDefaultFilters w (userEntityRef_of user) ++ resolved)
       !! (length (getDefaultFilters w (userEntityRef_of user)) + j)%nat = Some r).
Proof.
  intros (token & Htoken & Hentity) Hkey Hlookup Hidentity Hresolved.
  split; [|split; [|split]].
  - by eapply dashboard_filter_query_issued.
  - intros key filters Hin.
    destruct (dashboard_queries w request v token Htoken entity Hentity Hkey
                project v' user resolved Hlookup Hidentity Hresolved _ Hin eq_refl)
      as [Heq|Heq]; by inversion Heq.
  - intros i d Hd. by apply lookup_app_l_Some.
  - intros j r Hr. by rewrite lookup_app_r, Nat.add_sub' by lia.
Qed.

Lemma dashboard_filters_defaults_first_witness :
  In (CallGetIssuesFromFilters (Some "BS")
        ([open_issues; incoming_issues; assigned_to_me] ++
         [named_filter "10001"; named_filter "10002"]))
     (trace (createRouter (world_of (Some bs_entity_filters) lookup_bs (Some guest))
               (Dashboard component_request) idle)) ∧
  ([open_issues; incoming_issues; assigned_to_me] ++
   [named_filter "10001"; named_filter "10002"]) !! 2%nat = Some assigned_to_me ∧
  ([open_issues; incoming_issues; assigned_to_me] ++
   [named_filter "10001"; named_filter "10002"]) !! (3 + 0)%nat
    = Some (named_filter "10001").
Proof.
  destruct (dashboard_filters_defaults_first
              (world_of (Some bs_entity_filters) lookup_bs (Some guest))
              component_request idle bs_entity_filters (Some bs_project) idle
              (Some guest) [named_filter "10001"; named_filter "10002"])
    as (Hsent & _ & Hdefaults & Hresolved).
  - exists "service-token". split; reflexivity.
  - vm_compute. reflexivity.
  - vm_compute. reflexivity.
  - reflexivity.
  - vm_compute. reflexivity.
  - split; [exact Hsent|]. split.
    + apply Hdefaults. reflexivity.
    + apply (Hresolved 0%nat). reflexivity.
Defined.

(** C9: when identity resolution yields no identity, the dashboard handler
    does not fail on that account: it logs a warning and builds the default
    filters without a user reference for the filter query; the later
    collaborators answering, it completes with status 200 and the project
    and issues as body; and it rejects only if one of those later
    collaborators does. *)
Theorem dashboard_without_identity w request v entity project v' :
  resolves w request entity →
  truthy_string (projectKey_of w entity) = true →
  getProjectResponse w (projectKey_of w entity) v = (Ok project, v') →
  getIdentity w request = Ok None →
  In (Log Warn "Could not find user identity")
     (trace (createRouter w (Dashboard request) v)) ∧
  (∀ resolved,
     annotation_filters w entity = Ok resolved →
     In (CallGetIssuesFromFilters (projectKey_of w entity)
           (getDefaultFilters w None ++ resolved))
        (trace (createRouter w (Dashboard request) v))) ∧
  (∀ resolved byFilter byComponent,
     annotation_filters w entity = Ok resolved →
     getIssuesFromFilters w (projectKey_of w entity)
       (getDefaultFilters w None ++ resolved) = Ok byFilter →
     getIssuesFromComponents w (projectKey_of w entity) (components_of w entity)
       = Ok byComponent →
     unhandled w (Dashboard request) v = false ∧
     status (response (createRouter w (Dashboard request) v)) = 200 ∧
     body (response (createRouter w (Dashboard request) v)) =
       Some (BJson (dashboard_json project (byFilter ++ byComponent)))) ∧
  (unhandled w (Dashboard request) v = true →
     (∃ err, annotation_filters w entity = Throw err) ∨
     (∃ resolved err,
        annotation_filters w entity = Ok resolved ∧
        getIssuesFromFilters w (projectKey_of w entity)
          (getDefaultFilters w None ++ resolved) = Throw err) ∨
     (∃ err, getIssuesFromComponents w (projectKey_of w entity)
               (components_of w entity) = Throw err)).
Proof.
  intros (token & Htoken & Hentity) Hkey Hlookup Hidentity.
  split; [|split; [|split]].
  - revert Hkey Hlookup. expose. intros Hkey Hlookup. run_handler.
    rewrite Htoken. simpl. rewrite Hentity. simpl. rewrite Hkey. simpl.
    rewrite Hlookup. simpl. rewrite Hidentity. simpl.
    repeat (case_match; simpl in *; simplify_eq); simpl; tauto.
  - intros resolved Hresolved.
    exact (dashboard_filter_query_issued w request v token Htoken entity Hentity Hkey
             project v' None resolved Hlookup Hidentity Hresolved).
  - intros resolved byFilter byComponent Hresolved HbyFilter HbyComponent.
    by destruct (dashboard_run_ok w request v token Htoken entity Hentity Hkey project v'
                   None resolved Hlookup Hidentity Hresolved byFilter HbyFilter
                   byComponent HbyComponent) as [-> ->].
  - revert Hkey Hlookup. expose. intros Hkey Hlookup. run_handler.
    rewrite Htoken. simpl. rewrite Hentity. simpl. rewrite Hkey. simpl.
    rewrite Hlookup. simpl. rewrite Hidentity. simpl.
    destruct (annotation_list entity (filtersAnnotation _)) as [names|]; simpl.
    + destruct (getFiltersFromAnnotations w names) as [resolved|err] eqn:Hresolved;
        simpl; [|intros _; left; by exists err].
      destruct (getIssuesFromFilters w _ _) as [byFilter|err] eqn:HbyFilter; simpl;
        [|intros _; right; left; by exists resolved, err].
      destruct (getIssuesFromComponents w _ _) as [byComponent|err]; simpl;
        [done|intros _; right; right; by exists err].
    + destruct (getIssuesFromFilters w _ _) as [byFilter|err] eqn:HbyFilter; simpl;
        [|intros _; right; left; exists [], err; by rewrite app_nil_r].
      destruct (getIssuesFromComponents w _ _) as [byComponent|err]; simpl;
        [done|intros _; right; right; by exists err].
Qed.

Lemma dashboard_without_identity_witness :
  In (Log Warn "Could not find user identity")
     (trace (createRouter (world_of (Some bs_entity) lookup_bs None)
               (Dashboard component_request) idle)) ∧
  In (CallGetIssuesFromFilters (Some "BS") ([open_issues; incoming_issues] ++ []))
     (trace (createRouter (world_of (Some bs_entity) lookup_bs None)
               (Dashboard component_request) idle)) ∧
  unhandled (world_of (Some bs_entity) lookup_bs None) (Dashboard component_request) idle
    = false ∧
  status (response (createRouter (world_of (Some bs_entity) lookup_bs None)
                      (Dashboard component_request) idle)) = 200 ∧
  body (response (createRouter (world_of (Some bs_entity) lookup_bs None)
                    (Dashboard component_request) idle)) =
    Some (BJson (dashboard_json (Some bs_project)
                   ([ {| issue_key := "BS-1" |}; {| issue_key := "BS-2" |} ] ++ []))).
Proof.
  destruct (dashboard_without_identity (world_of (Some bs_entity) lookup_bs None)
              component_request idle bs_entity (Some bs_project) idle)
    as (Hwarned & Hquery & Hcompletes & _).
  - exists "service-token". split; reflexivity.
  - vm_compute. reflexivity.
  - vm_compute. reflexivity.
  - reflexivity.
  - split; [exact Hwarned|].
    split; [apply (Hquery []); vm_compute; reflexivity|].
    apply (Hcompletes [] [ {| issue_key := "BS-1" |}; {| issue_key := "BS-2" |} ] []).
    + vm_compute. reflexivity.
    + reflexivity.
    + vm_compute. reflexivity.
Defined.

(** C4: a successful dashboard request for an entity with a non-empty
    components annotation returns as data the issues of the filter query
    followed by the issues of the component query, nothing removed: its
    length is the sum of the two lengths. *)
Theorem dashboard_data_length w request v entity components project data :
  resolves w request entity →
  annotation entity (componentsAnnotation (getAnnotations w)) = Some components →
  components ≠ "" →
  body (response (createRouter w (Dashboard request) v)) =
    Some (BJson (dashboard_json project data)) →
  ∃ filters byFilter byComponent,
    In (CallGetIssuesFromFilters (projectKey_of w entity) filters)
       (trace (createRouter w (Dashboard request) v)) ∧
    getIssuesFromFilters w (projectKey_of w entity) filters = Ok byFilter ∧
    In (CallGetIssuesFromComponents (projectKey_of w entity) (components_of w entity))
       (trace (createRouter w (Dashboard request) v)) ∧
    getIssuesFromComponents w (projectKey_of w entity) (components_of w entity)
      = Ok byComponent ∧
    components_of w entity ≠ [] ∧
    data = byFilter ++ byComponent ∧
    length data = (length byFilter + length byComponent)%nat ∧
    status (response (createRouter w (Dashboard request) v)) = 200.
Proof.
  intros Hres Hcomponents Hnonempty Hbody.
  destruct (dashboard_success_inv w request v entity project data Hres Hbody)
    as (v' & user & resolved & byFilter & byComponent & Hkey & Hlookup & Hidentity
        & Hresolved & HbyFilter & HbyComponent & ->).
  destruct Hres as (token & Htoken & Hentity).
  exists (getDefaultFilters w (userEntityRef_of user) ++ resolved), byFilter, byComponent.
  split; [by eapply dashboard_filter_query_issued|].
  split; [done|].
  split; [by eapply dashboard_component_query_issued|].
  split; [done|].
  split.
  { unfold components_of, annotation_list. rewrite Hcomponents. simpl.
    intros Hnil. apply app_eq_nil in Hnil as [Hnil _].
    by apply split_not_nil in Hnil. }
  split; [done|].
  split; [apply length_app|].
  by destruct (dashboard_run_ok w request v token Htoken entity Hentity Hkey project v'
                 user resolved Hlookup Hidentity Hresolved byFilter HbyFilter
                 byComponent HbyComponent) as [_ ->].
Qed.

Lemma dashboard_data_length_witness :
  ∃ filters byFilter byComponent,
    In (CallGetIssuesFromFilters (Some "BS") filters)
       (trace (createRouter (world_of (Some bs_entity_components) lookup_bs (Some guest))
                 (Dashboard component_request) idle)) ∧
    getIssuesFromFilters (world_of (Some bs_entity_components) lookup_bs (Some guest))
      (Some "BS") filters = Ok byFilter ∧
    In (CallGetIssuesFromComponents (Some "BS") ["A"; "B"])
       (trace (createRouter (world_of (Some bs_entity_components) lookup_bs (Some guest))
                 (Dashboard component_request) idle)) ∧
    getIssuesFromComponents (world_of (Some bs_entity_components) lookup_bs (Some guest))
      (Some "BS") ["A"; "B"] = Ok byComponent ∧
    ["A"; "B"] ≠ [] ∧
    [ {| issue_key := "BS-1" |}; {| issue_key := "BS-2" |};
      {| issue_key := "BS-2" |}; {| issue_key := "BS-3" |} ] = byFilter ++ byComponent ∧
    4%nat = (length byFilter + length byComponent)%nat ∧
    status (response (createRouter
                        (world_of (Some bs_entity_components) lookup_bs (Some guest))
                        (Dashboard component_request) idle)) = 200.
Proof.
  apply (dashboard_data_length
           (world_of (Some bs_entity_components) lookup_bs (Some guest))
           component_request idle bs_entity_components "A" (Some bs_project)
           [ {| issue_key := "BS-1" |}; {| issue_key := "BS-2" |};
             {| issue_key := "BS-2" |}; {| issue_key := "BS-3" |} ]).
  - exists "service-token". split; reflexivity.
  - vm_compute. reflexivity.
  - discriminate.
  - vm_compute. reflexivity.
Defined.

(** What the fields of a split are: none holds the separator, there is one
    more of them than the string has separators, and put together again
    with the separator between them they are the string. *)
Lemma split_at_separator sep s :
  join sep (split sep s) = s ∧
  Forall (λ field, occurrences sep field = 0%nat) (split sep s) ∧
  length (split sep s) = S (occurrences sep s).
Proof.
  induction s as [|c s (IHjoin & IHnone & IHlen)]; simpl.
  { repeat split. by repeat constructor. }
  destruct (Ascii.eqb c sep) eqn:Hc.
  - apply Ascii.eqb_eq in Hc as ->.
    split; [|split; [by constructor|by simpl; rewrite IHlen]].
    destruct (split sep s) as [|field fields] eqn:Hs; [by destruct (split_not_nil sep s)|].
    change (join sep (EmptyString :: field :: fields))
      with (String sep (join sep (field :: fields))).
    by rewrite IHjoin.
  - destruct (split sep s) as [|field fields] eqn:Hs; [by destruct (split_not_nil sep s)|].
    split; [|split; [|done]].
    + destruct fields as [|next fields]; [simpl in *; by rewrite IHjoin|].
      change (join sep (String c field :: next :: fields))
        with (String c (join sep (field :: next :: fields))).
      by rewrite IHjoin.
    + inversion IHnone; subst. constructor; [|done]. simpl. by rewrite Hc.
Qed.

(** C5: when both component annotations are present, the list of the
    component query is the comma-split values of the primary annotation
    followed by those of the alternate one.  A component query the request
    sends carries this list, and the query is sent once the filter query has
    answered.  The parts of the list are the values cut at their commas:
    joined with commas they give each annotation's value back, no
    component of the list holds a comma, and the list has as many
    components as the two values have comma-separated fields; it holds the
    components of both annotations, neither replacing the other. *)
Theorem dashboard_components_concatenated w request v entity primary roadie :
  resolves w request entity →
  annotation entity (componentsAnnotation (getAnnotations w)) = Some primary →
  annotation entity (componentRoadieAnnotation (getAnnotations w)) = Some roadie →
  (∀ key components,
     In (CallGetIssuesFromComponents key components)
        (trace (createRouter w (Dashboard request) v)) →
     components = split comma primary ++ split comma roadie) ∧
  (filter_query_answered w request v entity →
     In (CallGetIssuesFromComponents (projectKey_of w entity)
           (split comma primary ++ split comma roadie))
        (trace (createRouter w (Dashboard request) v))) ∧
  join ","%char (split comma primary) = primary ∧
  join ","%char (split comma roadie) = roadie ∧
  Forall (λ component, occurrences ","%char component = 0%nat)
         (split comma primary ++ split comma roadie) ∧
  length (split comma primary ++ split comma roadie) =
    (S (occurrences ","%char primary) + S (occurrences ","%char roadie))%nat ∧
  (∀ c, In c (split comma primary) ∨ In c (split comma roadie) ↔
        In c (split comma primary ++ split comma roadie)).
Proof.
  intros Hres Hprimary Hroadie.
  assert (Hlist : components_of w entity = split comma primary ++ split comma roadie).
  { unfold components_of, annotation_list. by rewrite Hprimary, Hroadie. }
  destruct (split_at_separator comma primary) as (Hjoin1 & Hnone1 & Hlen1).
  destruct (split_at_separator comma roadie) as (Hjoin2 & Hnone2 & Hlen2).
  split; [|split; [|split; [|split; [|split; [|split]]]]].
  - intros key components Hin. rewrite <- Hlist.
    by destruct (dashboard_component_queries w request v entity key components Hres Hin).
  - intros (project & v' & user & resolved & byFilter & Hkey & Hlookup & Hidentity
            & Hresolved & HbyFilter).
    destruct Hres as (token & Htoken & Hentity). rewrite <- Hlist.
    by eapply dashboard_component_query_issued.
  - exact Hjoin1.
  - exact Hjoin2.
  - apply Forall_app. split; [exact Hnone1|exact Hnone2].
  - rewrite length_app. exact (f_equal2 Nat.add Hlen1 Hlen2).
  - intros c. by rewrite in_app_iff.
Qed.

Lemma dashboard_components_concatenated_witness :
  In (CallGetIssuesFromComponents (Some "BS") ["A"; "C"; "B"; "D"])
     (trace (createRouter (world_of (Some bs_entity_both) lookup_bs (Some guest))
               (Dashboard component_request) idle)) ∧
  (∀ key components,
     In (CallGetIssuesFromComponents key components)
        (trace (createRouter (world_of (Some bs_entity_both) lookup_bs (Some guest))
                  (Dashboard component_request) idle)) →
     components = ["A"; "C"; "B"; "D"]) ∧
  join ","%char ["A"; "C"] = "A,C" ∧
  join ","%char ["B"; "D"] = "B,D" ∧
  length ["A"; "C"; "B"; "D"] = 4%nat.
Proof.
  destruct (dashboard_components_concatenated
              (world_of (Some bs_entity_both) lookup_bs (Some guest))
              component_request idle bs_entity_both "A,C" "B,D")
    as (Honly & Hsent & Hjoin1 & Hjoin2 & _ & Hlen & _).
  - exists "service-token". split; reflexivity.
  - vm_compute. reflexivity.
  - vm_compute. reflexivity.
  - split; [|split; [exact Honly|split; [exact Hjoin1|split; [exact Hjoin2|exact Hlen]]]].
    apply Hsent.
    exists (Some bs_project), idle, (Some guest), [],
      [ {| issue_key := "BS-1" |}; {| issue_key := "BS-2" |} ].
    split; [vm_compute; reflexivity|].
    split; [vm_compute; reflexivity|].
    split; [reflexivity|].
    split; [vm_compute; reflexivity|].
    reflexivity.
Defined.

(** C6 does not hold of the code: the guard [if (components)] tests an
    array, which is truthy also when empty.  For an entity with a project
    key and neither component annotation the component list is empty and
    the component query is sent all the same. *)
Theorem dashboard_component_query_on_empty_list :
  annotation bs_entity "jira.com/components" = None ∧
  annotation bs_entity "jira/component" = None ∧
  components_of (world_of (Some bs_entity) lookup_bs (Some guest)) bs_entity = [] ∧
  In (CallGetIssuesFromComponents (Some "BS") [])
     (trace (createRouter (world_of (Some bs_entity) lookup_bs (Some guest))
               (Dashboard component_request) idle)) ∧
  status (response (createRouter (world_of (Some bs_entity) lookup_bs (Some guest))
                      (Dashboard component_request) idle)) = 200.
Proof.
  split; [vm_compute; reflexivity|].
  split; [vm_compute; reflexivity|].
  split; [vm_compute; reflexivity|].
  split; [|reflexivity].
  vm_compute. tauto.
Qed.

(** ** The avatar route *)

(** C8 does not hold of the code when the look-up rejects: the avatar
    handler has no [try]/[catch] around [getProjectResponse], so the
    rejection leaves the handler and the error handler answers, with 500
    and not 400; the dashboard handler catches the same rejection and
    answers 404.  No image is fetched. *)
Theorem avatar_lookup_rejects_unhandled :
  getProjectResponse (world_of (Some bs_entity) lookup_rejects None) (Some "BS") idle
    = (Throw "Request failed with status 503", idle) ∧
  unhandled (world_of (Some bs_entity) lookup_rejects None)
    (AvatarRoute component_request) idle = true ∧
  status (response (createRouter (world_of (Some bs_entity) lookup_rejects None)
                      (AvatarRoute component_request) idle)) = 500 ∧
  status (response (createRouter (world_of (Some bs_entity) lookup_rejects None)
                      (AvatarRoute component_request) idle)) ≠ 400 ∧
  Forall (λ e, is_avatar_fetch e = false)
         (trace (createRouter (world_of (Some bs_entity) lookup_rejects None)
                   (AvatarRoute component_request) idle)) ∧
  unhandled (world_of (Some bs_entity) lookup_rejects None)
    (Dashboard component_request) idle = false ∧
  status (response (createRouter (world_of (Some bs_entity) lookup_rejects None)
                      (Dashboard component_request) idle)) = 404.
Proof.
  split; [reflexivity|].
  split; [reflexivity|].
  split; [reflexivity|].
  split; [vm_compute; discriminate|].
  split; [|split; reflexivity].
  vm_compute. repeat constructor.
Qed.



(** The avatar request of that entity ends in 400 with the undefined key
    printed into the message. *)
Example avatar_undefined_key :
  response (createRouter (world_of (Some bare_entity) lookup_bs None)
              (AvatarRoute component_request) idle) =
  {| status := 400; headers := [];
     body := Some (BJson (error_json
               "No Jira project found for project key undefined")) |}.
Proof. reflexivity. Qed.

(** An image the tracker serves goes out with its content type and bytes. *)
Example avatar_streams_image :
  response (createRouter (world_of (Some bs_entity) lookup_bs None)
              (AvatarRoute component_request) idle) =
  {| status := 200; headers := [("content-type", "image/png")];
     body := Some (BStream (avatar_body png)) |}.
Proof. reflexivity. Qed.

(** * Further properties of the router *)

(** ** Rejections and answers *)

(** X1: a handler that rejects has not touched the response: no status, no
    header and no body is written before the error handler takes over. *)
Theorem rejection_leaves_response_untouched w r v err :
  fst (outcome w r v) = Throw err →
  response (snd (outcome w r v)) = fresh_response.
Proof.
  destruct r as [|request|request]; run_outcome;
    repeat (case_match; simpl in *; simplify_eq); simpl; done.
Qed.

Lemma rejection_leaves_response_untouched_witness :
  response (snd (outcome
    (rejecting_component_query (world_of (Some bs_entity) lookup_bs (Some guest)) "502")
    (Dashboard component_request) idle)) = fresh_response.
Proof.
  apply (rejection_leaves_response_untouched
           (rejecting_component_query (world_of (Some bs_entity) lookup_bs (Some guest)) "502")
           (Dashboard component_request) idle "502").
  reflexivity.
Defined.

(** X2: a handler that does not reject has sent a body, and its status is
    200 on the health route, one of 200, 404, 500 on the dashboard route and
    one of 200, 400, 500 on the avatar route. *)
Theorem handled_request_is_answered w r v :
  unhandled w r v = false →
  is_Some (body (response (createRouter w r v))) ∧
  match r with
  | Health => status (response (createRouter w r v)) = 200
  | Dashboard _ => In (status (response (createRouter w r v))) [200; 404; 500]
  | AvatarRoute _ => In (status (response (createRouter w r v))) [200; 400; 500]
  end.
Proof.
  destruct r as [|request|request]; run_handler;
    repeat (case_match; simpl in *; simplify_eq); simpl;
    intros _; (split; [by eexists|tauto]) || done.
Qed.

Lemma handled_request_is_answered_witness :
  is_Some (body (response (createRouter (world_of (Some bare_entity) lookup_bs None)
                             (AvatarRoute component_request) idle))) ∧
  In (status (response (createRouter (world_of (Some bare_entity) lookup_bs None)
                          (AvatarRoute component_request) idle))) [200; 400; 500].
Proof.
  apply (handled_request_is_answered (world_of (Some bare_entity) lookup_bs None)
           (AvatarRoute component_request) idle).
  reflexivity.
Defined.

(** X3: what the dashboard handler sends is JSON throughout: the object
    [{project, data}] with status 200 and with no other status, a string or
    [{error}] with 404, [{error}] with 500. *)
Theorem dashboard_body_by_status w request v :
  unhandled w (Dashboard request) v = false →
  (status (response (createRouter w (Dashboard request) v)) = 200 ∧
   ∃ project data,
     body (response (createRouter w (Dashboard request) v)) =
       Some (BJson (dashboard_json project data))) ∨
  (status (response (createRouter w (Dashboard request) v)) = 404 ∧
   ∃ msg,
     body (response (createRouter w (Dashboard request) v)) = Some (BJson (JStr msg)) ∨
     body (response (createRouter w (Dashboard request) v)) = Some (BJson (error_json msg))) ∨
  (status (response (createRouter w (Dashboard request) v)) = 500 ∧
   ∃ msg,
     body (response (createRouter w (Dashboard request) v)) = Some (BJson (error_json msg))).
Proof.
  unfold dashboard_json. run_handler.
  repeat (case_match; simpl in *; simplify_eq); simpl; intros _; try done;
    first [ by left; eauto
          | by right; left; eauto
          | by right; right; eauto ].
Qed.

Lemma dashboard_body_by_status_witness :
  (status (response (createRouter (world_of (Some bs_entity) lookup_bs None)
                       (Dashboard component_request) idle)) = 200 ∧
   ∃ project data,
     body (response (createRouter (world_of (Some bs_entity) lookup_bs None)
                       (Dashboard component_request) idle)) =
       Some (BJson (dashboard_json project data))) ∨
  (status (response (createRouter (world_of (Some bs_entity) lookup_bs None)
                       (Dashboard component_request) idle)) = 404 ∧
   ∃ msg,
     body (response (createRouter (world_of (Some bs_entity) lookup_bs None)
                       (Dashboard component_request) idle)) = Some (BJson (JStr msg)) ∨
     body (response (createRouter (world_of (Some bs_entity) lookup_bs None)
                       (Dashboard component_request) idle)) = Some (BJson (error_json msg))) ∨
  (status (response (createRouter (world_of (Some bs_entity) lookup_bs None)
                       (Dashboard component_request) idle)) = 500 ∧
   ∃ msg,
     body (response (createRouter (world_of (Some bs_entity) lookup_bs None)
                       (Dashboard component_request) idle)) = Some (BJson (error_json msg))).
Proof.
  apply (dashboard_body_by_status (world_of (Some bs_entity) lookup_bs None)
           component_request idle).
  reflexivity.
Defined.

(** X4: a handler rejects with the error of the call it made last, and every
    call before that one was answered: the first rejection ends the request
    and nothing is called after it. *)
Theorem first_rejection_ends_request w r v err :
  fst (outcome w r v) = Throw err →
  ∃ before last,
    trace (snd (outcome w r v)) = before ++ [last] ∧
    rejection w r v last = Some err ∧
    Forall (λ e, rejection w r v e = None) before.
Proof.
  destruct r as [|request|request]; run_outcome;
    repeat (case_match; simpl in *; simplify_eq); simpl; try done;
    intros [= ->]; split_last;
    (split; [by use_answers|]);
    repeat constructor; by use_answers.
Qed.

Lemma first_rejection_ends_request_witness :
  ∃ before last,
    trace (snd (outcome
      (rejecting_filter_query (world_of (Some bs_entity) lookup_bs (Some guest)) "502")
      (Dashboard component_request) idle)) = before ++ [last] ∧
    rejection
      (rejecting_filter_query (world_of (Some bs_entity) lookup_bs (Some guest)) "502")
      (Dashboard component_request) idle last = Some "502" ∧
    Forall (λ e, rejection
      (rejecting_filter_query (world_of (Some bs_entity) lookup_bs (Some guest)) "502")
      (Dashboard component_request) idle e = None) before.
Proof.
  apply (first_rejection_ends_request
           (rejecting_filter_query (world_of (Some bs_entity) lookup_bs (Some guest)) "502")
           (Dashboard component_request) idle "502").
  reflexivity.
Defined.

(** X5: the dashboard handler never rejects on account of the project
    look-up: when no other collaborator rejects, whatever it is asked, the
    handler answers itself, whatever the look-up does. *)
Theorem dashboard_catches_lookup_rejection w request v :
  (∀ e, call_kind e ≠ Some KLookup → rejection w (Dashboard request) v e = None) →
  unhandled w (Dashboard request) v = false.
Proof.
  intros Hanswer.
  pose proof (Hanswer CallGetToken ltac:(done)) as Htoken.
  assert (Hcatalog : ∀ ref token, thrown (getEntityByRef w ref token) = None)
    by (intros; by apply (Hanswer (CallGetEntityByRef _ _))).
  pose proof (Hanswer CallGetIdentity ltac:(done)) as Hidentity.
  assert (Hresolve : ∀ names, thrown (getFiltersFromAnnotations w names) = None)
    by (intros; by apply (Hanswer (CallGetFiltersFromAnnotations _))).
  assert (Hfilter : ∀ key filters, thrown (getIssuesFromFilters w key filters) = None)
    by (intros; by apply (Hanswer (CallGetIssuesFromFilters _ _))).
  assert (Hcomponent : ∀ key comps, thrown (getIssuesFromComponents w key comps) = None)
    by (intros; by apply (Hanswer (CallGetIssuesFromComponents _ _))).
  clear Hanswer. simpl in Htoken, Hidentity. run_handler.
  repeat (case_match; simpl in *; simplify_eq); simpl; try done;
    match goal with
    | H : getToken w = Throw _ |- _ => by rewrite H in Htoken
    | H : getEntityByRef w ?r ?t = Throw _ |- _ =>
        specialize (Hcatalog r t); by rewrite H in Hcatalog
    | H : getIdentity w request = Throw _ |- _ => by rewrite H in Hidentity
    | H : getFiltersFromAnnotations w ?n = Throw _ |- _ =>
        specialize (Hresolve n); by rewrite H in Hresolve
    | H : getIssuesFromFilters w ?k ?f = Throw _ |- _ =>
        specialize (Hfilter k f); by rewrite H in Hfilter
    | H : getIssuesFromComponents w ?k ?c = Throw _ |- _ =>
        specialize (Hcomponent k c); by rewrite H in Hcomponent
    end.
Qed.

Lemma dashboard_catches_lookup_rejection_witness :
  unhandled (world_of (Some bs_entity) lookup_rejects None)
    (Dashboard component_request) idle = false.
Proof.
  apply (dashboard_catches_lookup_rejection (world_of (Some bs_entity) lookup_rejects None)
           component_request idle).
  intros e Hkind. destruct e; try reflexivity.
  - exfalso. apply Hkind. reflexivity.
  - destruct components; reflexivity.
Defined.

(** ** The order of calls *)

(** X6: the dashboard handler calls its collaborators in one fixed order
    (token, catalog, project look-up, identity, filter names if any, filter
    query, component query), each at most once, and stops somewhere along
    it; a request it answers with 200 went through all of it. *)
Theorem dashboard_calls_in_order w request v :
  (∃ resolve,
     calls (trace (createRouter w (Dashboard request) v))
       `prefix_of` dashboard_pipeline resolve) ∧
  (unhandled w (Dashboard request) v = false →
   status (response (createRouter w (Dashboard request) v)) = 200 →
   ∃ resolve,
     calls (trace (createRouter w (Dashboard request) v)) = dashboard_pipeline resolve).
Proof.
  unfold calls, dashboard_pipeline. run_handler.
  repeat (case_match; simpl in *; simplify_eq); simpl;
    (split;
     [ first [ by exists true; eexists | by exists false; eexists ]
     | try done; intros _ _;
       first [ by exists true | by exists false ] ]).
Qed.

Lemma dashboard_calls_in_order_witness :
  ∃ resolve,
    calls (trace (createRouter (world_of (Some bs_entity_filters) lookup_bs (Some guest))
                    (Dashboard component_request) idle)) = dashboard_pipeline resolve.
Proof.
  apply (dashboard_calls_in_order (world_of (Some bs_entity_filters) lookup_bs (Some guest))
           component_request idle); reflexivity.
Defined.

(** X7: the avatar handler calls token manager, catalog, project look-up and
    image fetch in this order, each at most once; an image is fetched only
    for a project the look-up returned, and the address is that project's
    [48x48] avatar URL, present or not. *)
Theorem avatar_calls_in_order w request v :
  calls (trace (createRouter w (AvatarRoute request) v)) `prefix_of` avatar_pipeline ∧
  (∀ url,
     In (CallGetProjectAvatar url) (trace (createRouter w (AvatarRoute request) v)) →
     ∃ entity project v',
       resolves w request entity ∧
       getProjectResponse w (projectKey_of w entity) v = (Ok (Some project), v') ∧
       url = avatarUrls project !! "48x48").
Proof.
  unfold calls, avatar_pipeline. expose. run_handler.
  repeat (case_match; simpl in *; simplify_eq); simpl;
    (split; [by eexists|]);
    intros url Hin;
    repeat (destruct Hin as [Heq|Hin]; [try discriminate|]); try done;
    injection Heq as <-; eauto 10.
Qed.

Lemma avatar_calls_in_order_witness :
  ∃ entity project v',
    resolves (world_of (Some bs_entity) lookup_bs None) component_request entity ∧
    getProjectResponse (world_of (Some bs_entity) lookup_bs None)
      (projectKey_of (world_of (Some bs_entity) lookup_bs None) entity) idle
      = (Ok (Some project), v') ∧
    Some "https://jira.example.com/avatar/BS.png" = avatarUrls project !! "48x48".
Proof.
  apply (avatar_calls_in_order (world_of (Some bs_entity) lookup_bs None)
           component_request idle).
  vm_compute. tauto.
Defined.

(** ** The avatar route *)

(** X8: the avatar handler answers a missing entity itself, with status 500
    and the body [{error}]; it has called the token manager and the catalog
    and nothing else, and the service state is as it was. *)
Theorem avatar_missing_entity w request v :
  entity_missing w request →
  unhandled w (AvatarRoute request) v = false ∧
  status (response (createRouter w (AvatarRoute request) v)) = 500 ∧
  body (response (createRouter w (AvatarRoute request) v)) =
    Some (BJson (error_json ("No entity found for " +:+ entityRef_of w request))) ∧
  calls (trace (createRouter w (AvatarRoute request) v)) = [KToken; KCatalog] ∧
  svc (createRouter w (AvatarRoute request) v) = v.
Proof.
  intros (token & Htoken & Hnone). revert Hnone. expose. intros Hnone.
  run_handler. rewrite Htoken. simpl. rewrite Hnone. done.
Qed.

Lemma avatar_missing_entity_witness :
  unhandled (world_of None lookup_bs None) (AvatarRoute component_request) idle = false ∧
  status (response (createRouter (world_of None lookup_bs None)
                      (AvatarRoute component_request) idle)) = 500 ∧
  body (response (createRouter (world_of None lookup_bs None)
                    (AvatarRoute component_request) idle)) =
    Some (BJson (error_json "No entity found for component:default/backstage")) ∧
  calls (trace (createRouter (world_of None lookup_bs None)
                  (AvatarRoute component_request) idle)) = [KToken; KCatalog] ∧
  svc (createRouter (world_of None lookup_bs None) (AvatarRoute component_request) idle)
    = idle.
Proof.
  apply (avatar_missing_entity (world_of None lookup_bs None) component_request idle).
  exists "service-token". split; reflexivity.
Defined.

(** X9: when the look-up returns a project and the image fetch answers with
    a body that streams to its end, the avatar handler answers 200 with the
    fetched bytes as they are and one header, the content type of the fetch
    response, or the empty string if that response has none. *)
Theorem avatar_passes_image_through w request v entity project v' image :
  resolves w request entity →
  getProjectResponse w (projectKey_of w entity) v = (Ok (Some project), v') →
  getProjectAvatar w (avatarUrls project !! "48x48") = Ok image →
  stream_error image = None →
  unhandled w (AvatarRoute request) v = false ∧
  status (response (createRouter w (AvatarRoute request) v)) = 200 ∧
  headers (response (createRouter w (AvatarRoute request) v)) =
    [("content-type", default "" (content_type image))] ∧
  body (response (createRouter w (AvatarRoute request) v)) =
    Some (BStream (avatar_body image)) ∧
  svc (createRouter w (AvatarRoute request) v) = v'.
Proof.
  intros (token & Htoken & Hentity) Hlookup Hfetch Hstream.
  revert Hentity Hlookup. expose. intros Hentity Hlookup. run_handler.
  rewrite Htoken. simpl. rewrite Hentity. simpl. rewrite Hlookup. simpl.
  rewrite Hfetch. simpl. rewrite Hstream. done.
Qed.

Lemma avatar_passes_image_through_witness :
  unhandled (world_of (Some bs_entity) lookup_bs None) (AvatarRoute component_request) idle
    = false ∧
  status (response (createRouter (world_of (Some bs_entity) lookup_bs None)
                      (AvatarRoute component_request) idle)) = 200 ∧
  headers (response (createRouter (world_of (Some bs_entity) lookup_bs None)
                       (AvatarRoute component_request) idle)) =
    [("content-type", default "" (content_type png))] ∧
  body (response (createRouter (world_of (Some bs_entity) lookup_bs None)
                    (AvatarRoute component_request) idle)) =
    Some (BStream (avatar_body png)) ∧
  svc (createRouter (world_of (Some bs_entity) lookup_bs None)
         (AvatarRoute component_request) idle) = idle.
Proof.
  apply (avatar_passes_image_through (world_of (Some bs_entity) lookup_bs None)
           component_request idle bs_entity bs_project idle png).
  - exists "service-token". split; reflexivity.
  - vm_compute. reflexivity.
  - reflexivity.
  - reflexivity.
Defined.

(** X10: a request changes the service state, cache included, through the
    project look-up of its entity's key and in no other way. *)
Theorem lookup_alone_changes_service_state w r v :
  svc (createRouter w r v) = v ∨
  ∃ request entity,
    request_of r = Some request ∧
    resolves w request entity ∧
    svc (createRouter w r v) = snd (getProjectResponse w (projectKey_of w entity) v).
Proof.
  destruct r as [|request|request]; expose; run_handler; [by left| |];
    repeat (case_match; simpl in *; simplify_eq); simpl;
    first [ by left
          | right; eexists _, _; split; [done|];
            split; [eexists; split; [done|eassumption]|];
            by use_answers ].
Qed.

(** ** Edge cases of the annotations *)

(** X11: a project-key annotation that is present but empty counts as
    missing on the dashboard route (404 after token manager and catalog,
    service state untouched), while the avatar handler looks the empty key
    up. *)
Theorem empty_project_key w request v entity :
  resolves w request entity →
  projectKey_of w entity = Some "" →
  status (response (createRouter w (Dashboard request) v)) = 404 ∧
  calls (trace (createRouter w (Dashboard request) v)) = [KToken; KCatalog] ∧
  svc (createRouter w (Dashboard request) v) = v ∧
  In (CallGetProjectResponse (Some "")) (trace (createRouter w (AvatarRoute request) v)).
Proof.
  intros (token & Htoken & Hentity) Hempty.
  assert (Hfalsy : truthy_string (projectKey_of w entity) = false) by by rewrite Hempty.
  destruct (dashboard_run_falsy_key w request v token Htoken entity Hentity Hfalsy)
    as [_ ->].
  repeat split. rewrite <- Hempty. by eapply avatar_lookup_called.
Qed.

Lemma empty_project_key_witness :
  status (response (createRouter (world_of (Some empty_key_entity) lookup_bs None)
                      (Dashboard component_request) idle)) = 404 ∧
  calls (trace (createRouter (world_of (Some empty_key_entity) lookup_bs None)
                  (Dashboard component_request) idle)) = [KToken; KCatalog] ∧
  svc (createRouter (world_of (Some empty_key_entity) lookup_bs None)
         (Dashboard component_request) idle) = idle ∧
  In (CallGetProjectResponse (Some ""))
     (trace (createRouter (world_of (Some empty_key_entity) lookup_bs None)
               (AvatarRoute component_request) idle)).
Proof.
  apply (empty_project_key (world_of (Some empty_key_entity) lookup_bs None)
           component_request idle empty_key_entity).
  - exists "service-token". split; reflexivity.
  - vm_compute. reflexivity.
Defined.

(** X12: the dashboard handler does not test what the look-up resolves to:
    a look-up that resolves without a project is followed by identity,
    filters and both queries, and the answer is 200 with an undefined
    project beside the issues; the avatar handler answers the same look-up
    with 400. *)
Theorem dashboard_without_project w request v entity v' user resolved byFilter byComponent :
  resolves w request entity →
  truthy_string (projectKey_of w entity) = true →
  getProjectResponse w (projectKey_of w entity) v = (Ok None, v') →
  getIdentity w request = Ok user →
  annotation_filters w entity = Ok resolved →
  getIssuesFromFilters w (projectKey_of w entity)
    (getDefaultFilters w (userEntityRef_of user) ++ resolved) = Ok byFilter →
  getIssuesFromComponents w (projectKey_of w entity) (components_of w entity)
    = Ok byComponent →
  status (response (createRouter w (Dashboard request) v)) = 200 ∧
  body (response (createRouter w (Dashboard request) v)) =
    Some (BJson (dashboard_json None (byFilter ++ byComponent))) ∧
  status (response (createRouter w (AvatarRoute request) v)) = 400.
Proof.
  intros (token & Htoken & Hentity) Hkey Hlookup Hidentity Hresolved HbyFilter HbyComponent.
  destruct (dashboard_run_ok w request v token Htoken entity Hentity Hkey None v'
              user resolved Hlookup Hidentity Hresolved byFilter HbyFilter
              byComponent HbyComponent) as [_ ->].
  by destruct (avatar_run_lookup_none w request v token entity Htoken Hentity v' Hlookup)
    as [_ ->].
Qed.

Lemma dashboard_without_project_witness :
  status (response (createRouter (world_of (Some bs_entity) lookup_nothing None)
                      (Dashboard component_request) idle)) = 200 ∧
  body (response (createRouter (world_of (Some bs_entity) lookup_nothing None)
                    (Dashboard component_request) idle)) =
    Some (BJson (dashboard_json None
                   ([ {| issue_key := "BS-1" |}; {| issue_key := "BS-2" |} ] ++ []))) ∧
  status (response (createRouter (world_of (Some bs_entity) lookup_nothing None)
                      (AvatarRoute component_request) idle)) = 400.
Proof.
  apply (dashboard_without_project (world_of (Some bs_entity) lookup_nothing None)
           component_request idle bs_entity idle None []
           [ {| issue_key := "BS-1" |}; {| issue_key := "BS-2" |} ] []).
  - exists "service-token". split; reflexivity.
  - vm_compute. reflexivity.
  - reflexivity.
  - reflexivity.
  - vm_compute. reflexivity.
  - reflexivity.
  - vm_compute. reflexivity.
Defined.



(** X14: the warning about the user identity is in the log exactly when the
    request got as far as identity resolution, that is, the project key is
    there and the look-up answered, and identity resolution yielded no
    identity. *)
Theorem identity_warning_iff_absent w request v entity :
  resolves w request entity →
  In (Log Warn "Could not find user identity")
     (trace (createRouter w (Dashboard request) v)) ↔
  truthy_string (projectKey_of w entity) = true ∧
  ∃ project v',
    getProjectResponse w (projectKey_of w entity) v = (Ok project, v') ∧
    getIdentity w request = Ok None.
Proof.
  intros (token & Htoken & Hentity). revert Hentity. expose. intros Hentity.
  run_handler. rewrite Htoken. simpl. rewrite Hentity. simpl.
  destruct (truthy_string _) eqn:Hkey; simpl.
  - destruct (getProjectResponse w _ v) as [[project|err] v'] eqn:Hlookup; simpl.
    + destruct (getIdentity w request) as [[user|]|err] eqn:Hidentity; simpl.
      * split.
        -- intros Hin. exfalso.
           repeat (case_match; simpl in *; simplify_eq);
             repeat (destruct Hin as [Heq|Hin]; [discriminate|]); done.
        -- intros (_ & ? & ? & ? & ?). simplify_eq.
      * split; [by eauto|]. intros _.
        repeat (case_match; simpl in *; simplify_eq); simpl; tauto.
      * split.
        -- intros Hin. repeat (destruct Hin as [Heq|Hin]; [discriminate|]). done.
        -- intros (_ & ? & ? & ? & ?). simplify_eq.
    + split.
      * intros Hin. repeat (destruct Hin as [Heq|Hin]; [discriminate|]). done.
      * intros (_ & ? & ? & ? & ?). simplify_eq.
  - split.
    + intros Hin. repeat (destruct Hin as [Heq|Hin]; [discriminate|]). done.
    + by intros [? _].
Qed.

Lemma identity_warning_iff_absent_witness :
  In (Log Warn "Could not find user identity")
     (trace (createRouter (world_of (Some bs_entity) lookup_bs None)
               (Dashboard component_request) idle)) ∧
  ¬ In (Log Warn "Could not find user identity")
       (trace (createRouter (world_of (Some bs_entity) lookup_bs (Some guest))
                 (Dashboard component_request) idle)).
Proof.
  split.
  - apply (identity_warning_iff_absent (world_of (Some bs_entity) lookup_bs None)
             component_request idle bs_entity).
    + exists "service-token". split; reflexivity.
    + split; [vm_compute; reflexivity|].
      exists (Some bs_project), idle. split; [vm_compute; reflexivity|reflexivity].
  - intros Hin.
    apply (identity_warning_iff_absent (world_of (Some bs_entity) lookup_bs (Some guest))
             component_request idle bs_entity) in Hin.
    + destruct Hin as (_ & project & v' & _ & Hnone). discriminate Hnone.
    + exists "service-token". split; reflexivity.
Defined.

(** X15: with one of the two component annotations present and the other
    absent, the component query carries the comma-split value of the one
    that is there: an absent annotation contributes nothing. *)
Theorem single_component_annotation w request v entity value :
  resolves w request entity →
  (annotation entity (componentsAnnotation (getAnnotations w)) = Some value ∧
   annotation entity (componentRoadieAnnotation (getAnnotations w)) = None) ∨
  (annotation entity (componentsAnnotation (getAnnotations w)) = None ∧
   annotation entity (componentRoadieAnnotation (getAnnotations w)) = Some value) →
  (∀ key components,
     In (CallGetIssuesFromComponents key components)
        (trace (createRouter w (Dashboard request) v)) →
     components = split comma value) ∧
  (filter_query_answered w request v entity →
     In (CallGetIssuesFromComponents (projectKey_of w entity) (split comma value))
        (trace (createRouter w (Dashboard request) v))).
Proof.
  intros Hres Hone.
  assert (Hlist : components_of w entity = split comma value).
  { unfold components_of, annotation_list.
    destruct Hone as [[-> ->]|[-> ->]]; simpl; [apply app_nil_r|done]. }
  split.
  - intros key components Hin. rewrite <- Hlist.
    by destruct (dashboard_component_queries w request v entity key components Hres Hin).
  - intros (project & v' & user & resolved & byFilter & Hkey & Hlookup & Hidentity
            & Hresolved & HbyFilter).
    destruct Hres as (token & Htoken & Hentity). rewrite <- Hlist.
    by eapply dashboard_component_query_issued.
Qed.

Lemma single_component_annotation_witness :
  In (CallGetIssuesFromComponents (Some "BS") (split comma "B,D"))
     (trace (createRouter (world_of (Some roadie_entity) lookup_bs (Some guest))
               (Dashboard component_request) idle)) ∧
  split comma "B,D" = ["B"; "D"].
Proof.
  split; [|reflexivity].
  apply (single_component_annotation
           (world_of (Some roadie_entity) lookup_bs (Some guest))
           component_request idle roadie_entity "B,D").
  - exists "service-token". split; reflexivity.
  - right. split; vm_compute; reflexivity.
  - exists (Some bs_project), idle, (Some guest), [],
      [ {| issue_key := "BS-1" |}; {| issue_key := "BS-2" |} ].
    split; [vm_compute; reflexivity|].
    split; [vm_compute; reflexivity|].
    split; [reflexivity|].
    split; [vm_compute; reflexivity|].
    reflexivity.
Defined.

(** X16: the issue queries of a dashboard request are for the entity's own
    project key, which is then a non-empty string: no issue query goes out
    without a key. *)
Theorem issue_queries_carry_project_key w request v entity e :
  resolves w request entity →
  In e (trace (createRouter w (Dashboard request) v)) →
  is_issue_query e = true →
  truthy_string (projectKey_of w entity) = true ∧
  ((∃ filters, e = CallGetIssuesFromFilters (projectKey_of w entity) filters) ∨
   e = CallGetIssuesFromComponents (projectKey_of w entity) (components_of w entity)).
Proof.
  intros (token & Htoken & Hentity). revert Hentity. expose. intros Hentity.
  run_handler. rewrite Htoken. simpl. rewrite Hentity. simpl.
  destruct (truthy_string _) eqn:Hkey; simpl; intros Hin Hquery;
    repeat (case_match; simpl in *; simplify_eq);
    repeat (destruct Hin as [<-|Hin]; [try discriminate; by eauto|]); done.
Qed.

Lemma issue_queries_carry_project_key_witness :
  truthy_string (projectKey_of (world_of (Some bs_entity_components) lookup_bs None)
                   bs_entity_components) = true ∧
  ((∃ filters, CallGetIssuesFromComponents (Some "BS") ["A"; "B"] =
               CallGetIssuesFromFilters
                 (projectKey_of (world_of (Some bs_entity_components) lookup_bs None)
                    bs_entity_components) filters) ∨
   CallGetIssuesFromComponents (Some "BS") ["A"; "B"] =
   CallGetIssuesFromComponents
     (projectKey_of (world_of (Some bs_entity_components) lookup_bs None)
        bs_entity_components)
     (components_of (world_of (Some bs_entity_components) lookup_bs None)
        bs_entity_components)).
Proof.
  apply (issue_queries_carry_project_key
           (world_of (Some bs_entity_components) lookup_bs None)
           component_request idle bs_entity_components
           (CallGetIssuesFromComponents (Some "BS") ["A"; "B"])).
  - exists "service-token". split; reflexivity.
  - vm_compute. tauto.
  - reflexivity.
Defined.

(** X17: on both entity routes the catalog is asked for the entity
    reference built from the request's kind, namespace and name, with the
    token the token manager issued. *)
Theorem catalog_asked_with_issued_token w r request v entityRef token :
  request_of r = Some request →
  In (CallGetEntityByRef entityRef token) (trace (createRouter w r v)) →
  entityRef = entityRef_of w request ∧ getToken w = Ok token.
Proof.
  destruct r as [|q|q]; intros [= <-]; expose; run_handler; intros Hin;
    repeat (case_match; simpl in *; simplify_eq);
    repeat (destruct Hin as [Heq|Hin]; [try discriminate; by injection Heq as <- <-|]);
    done.
Qed.

Lemma catalog_asked_with_issued_token_witness :
  "component:default/backstage"
    = entityRef_of (world_of (Some bs_entity) lookup_bs None) component_request ∧
  getToken (world_of (Some bs_entity) lookup_bs None) = Ok "service-token".
Proof.
  apply (catalog_asked_with_issued_token (world_of (Some bs_entity) lookup_bs None)
           (AvatarRoute component_request) component_request idle).
  - reflexivity.
  - vm_compute. tauto.
Defined.

(** ** Splitting at commas *)

Lemma split_cons_field sep s : ∃ field fields, split sep s = field :: fields.
Proof.
  destruct s as [|c s]; simpl; [by eauto|].
  destruct (Ascii.eqb c sep); [by eauto|].
  destruct (split sep s); by eauto.
Qed.

(** X18: joining the fields of a split with the separator gives the string
    back: splitting an annotation value loses nothing, empty fields
    included. *)
Theorem join_split sep s : join sep (split sep s) = s.
Proof.
  induction s as [|c s IH]; simpl; [done|].
  destruct (Ascii.eqb c sep) eqn:Hc.
  - apply Ascii.eqb_eq in Hc as ->.
    destruct (split_cons_field sep s) as (field & fields & Hs).
    rewrite Hs in IH |- *.
    change (join sep (EmptyString :: field :: fields))
      with (String sep (join sep (field :: fields))).
    by rewrite IH.
  - destruct (split sep s) as [|field fields]; [by rewrite <- IH|].
    destruct fields as [|next fields]; [simpl in *; by rewrite IH|].
    change (join sep (String c field :: next :: fields))
      with (String c (join sep (field :: next :: fields))).
    by rewrite IH.
Qed.

(** X19: a split has one field more than the string has separators, so at
    least one, and no field holds a separator. *)
Theorem split_fields sep s :
  length (split sep s) = S (occurrences sep s) ∧
  Forall (λ field, occurrences sep field = 0%nat) (split sep s).
Proof.
  induction s as [|c s [IHlen IHall]]; simpl; [by repeat constructor|].
  destruct (Ascii.eqb c sep) eqn:Hc; simpl.
  - split; [by rewrite IHlen|]. by constructor.
  - destruct (split sep s) as [|field fields]; simpl in *; [done|].
    split; [done|]. inversion IHall; subst. constructor; [|done].
    simpl. by rewrite Hc.
Qed.
